(** * asr.h: transform stacks, GPU geometry lifecycle and frame rendering

    A shallow embedding of [src/include/asr.h].  The header keeps all of its
    state in namespace-level globals and drives OpenGL and GLM; here

    - the globals of [namespace asr] become one record, [asr.State], threaded
      through every operation;
    - the OpenGL device is observed through the log of the calls issued to
      it ([gl_calls], most recent call first), with a small interpretation of
      that log for the capability flags and the buffer clears;
    - [float] is idealised as the real numbers [R]: rounding, infinities and
      NaN are not modelled;
    - undefined behaviour of the C++ (reading or popping an empty
      [std::stack], a dangling geometry pointer) and a failed [assert] are
      explicit outcomes of the [asr.Result] type. *)

From Stdlib Require Import Reals ZArith List Bool Lia Lra.
Import ListNotations.

(** ** GLM: the part of the matrix library that asr.h calls *)

Module glm.

Local Open Scope R_scope.

Record vec3 := mkvec3 { x : R; y : R; z : R }.

(** A [vec4] is used here as a matrix column, its components are indexed. *)
Record vec4 := mkvec4 { e0 : R; e1 : R; e2 : R; e3 : R }.

(** [glm::mat4] is column-major: [m[i]] is the i-th column. *)
Record mat4 := mkmat4 { c0 : vec4; c1 : vec4; c2 : vec4; c3 : vec4 }.

Definition vadd (a b : vec4) : vec4 :=
  mkvec4 (e0 a + e0 b) (e1 a + e1 b) (e2 a + e2 b) (e3 a + e3 b).

Definition vsub (a b : vec4) : vec4 :=
  mkvec4 (e0 a - e0 b) (e1 a - e1 b) (e2 a - e2 b) (e3 a - e3 b).

(** component-wise product of two vectors *)
Definition vmul (a b : vec4) : vec4 :=
  mkvec4 (e0 a * e0 b) (e1 a * e1 b) (e2 a * e2 b) (e3 a * e3 b).

(** vector times scalar *)
Definition vscale (a : vec4) (k : R) : vec4 :=
  mkvec4 (e0 a * k) (e1 a * k) (e2 a * k) (e3 a * k).

(** [glm::mat4{1.0f}]: the scalar constructor fills the diagonal. *)
Definition mat4_diag (k : R) : mat4 :=
  mkmat4 (mkvec4 k 0 0 0) (mkvec4 0 k 0 0) (mkvec4 0 0 k 0) (mkvec4 0 0 0 k).

Definition identity : mat4 := mat4_diag 1.

(** [operator*(mat4, vec4)]: linear combination of the columns. *)
Definition mat_vec (m : mat4) (v : vec4) : vec4 :=
  vadd (vadd (vadd (vscale (c0 m) (e0 v)) (vscale (c1 m) (e1 v)))
             (vscale (c2 m) (e2 v)))
       (vscale (c3 m) (e3 v)).

(** [operator*(mat4, mat4)]: column j of the product is [m1 * m2[j]]. *)
Definition mat_mul (m1 m2 : mat4) : mat4 :=
  mkmat4 (mat_vec m1 (c0 m2)) (mat_vec m1 (c1 m2))
         (mat_vec m1 (c2 m2)) (mat_vec m1 (c3 m2)).

(** [operator*(mat4, float)] *)
Definition mat_scale (m : mat4) (k : R) : mat4 :=
  mkmat4 (vscale (c0 m) k) (vscale (c1 m) k) (vscale (c2 m) k) (vscale (c3 m) k).

Definition dot (a b : vec3) : R := x a * x b + y a * y b + z a * z b.

Definition inversesqrt (r : R) : R := 1 / sqrt r.

Definition normalize (v : vec3) : vec3 :=
  let k := inversesqrt (dot v v) in mkvec3 (x v * k) (y v * k) (z v * k).

(** [glm::translate(m, v)]: only the last column changes. *)
Definition translate (m : mat4) (v : vec3) : mat4 :=
  mkmat4 (c0 m) (c1 m) (c2 m)
         (vadd (vadd (vadd (vscale (c0 m) (x v)) (vscale (c1 m) (y v)))
                     (vscale (c2 m) (z v)))
               (c3 m)).

(** [glm::scale(m, v)] *)
Definition scale (m : mat4) (v : vec3) : mat4 :=
  mkmat4 (vscale (c0 m) (x v)) (vscale (c1 m) (y v)) (vscale (c2 m) (z v)) (c3 m).

(** [glm::rotate(m, angle, axis)]: builds the 3x3 rotation about the
    normalised axis and combines the first three columns of [m] with it. *)
Definition rotate (m : mat4) (angle : R) (v : vec3) : mat4 :=
  let c := cos angle in
  let s := sin angle in
  let axis := normalize v in
  let temp := mkvec3 ((1 - c) * x axis) ((1 - c) * y axis) ((1 - c) * z axis) in
  let r00 := c + x temp * x axis in
  let r01 := x temp * y axis + s * z axis in
  let r02 := x temp * z axis - s * y axis in
  let r10 := y temp * x axis - s * z axis in
  let r11 := c + y temp * y axis in
  let r12 := y temp * z axis + s * x axis in
  let r20 := z temp * x axis + s * y axis in
  let r21 := z temp * y axis - s * x axis in
  let r22 := c + z temp * z axis in
  mkmat4
    (vadd (vadd (vscale (c0 m) r00) (vscale (c1 m) r01)) (vscale (c2 m) r02))
    (vadd (vadd (vscale (c0 m) r10) (vscale (c1 m) r11)) (vscale (c2 m) r12))
    (vadd (vadd (vscale (c0 m) r20) (vscale (c1 m) r21)) (vscale (c2 m) r22))
    (c3 m).

(** [glm::ortho(left, right, bottom, top, zNear, zFar)], the right-handed
    variant with depth range [-1, 1] that GLM selects by default. *)
Definition ortho (left right bottom top zNear zFar : R) : mat4 :=
  mkmat4
    (mkvec4 (2 / (right - left)) 0 0 0)
    (mkvec4 0 (2 / (top - bottom)) 0 0)
    (mkvec4 0 0 (- (2 / (zFar - zNear))) 0)
    (mkvec4 (- ((right + left) / (right - left)))
            (- ((top + bottom) / (top - bottom)))
            (- ((zFar + zNear) / (zFar - zNear)))
            1).

(** [glm::inverse(mat4)]: cofactors from 2x2 sub-determinants, scaled by the
    reciprocal of the determinant. *)
Definition inverse (m : mat4) : mat4 :=
  let m00 := e0 (c0 m) in let m01 := e1 (c0 m) in
  let m02 := e2 (c0 m) in let m03 := e3 (c0 m) in
  let m10 := e0 (c1 m) in let m11 := e1 (c1 m) in
  let m12 := e2 (c1 m) in let m13 := e3 (c1 m) in
  let m20 := e0 (c2 m) in let m21 := e1 (c2 m) in
  let m22 := e2 (c2 m) in let m23 := e3 (c2 m) in
  let m30 := e0 (c3 m) in let m31 := e1 (c3 m) in
  let m32 := e2 (c3 m) in let m33 := e3 (c3 m) in
  let coef00 := m22 * m33 - m32 * m23 in
  let coef02 := m12 * m33 - m32 * m13 in
  let coef03 := m12 * m23 - m22 * m13 in
  let coef04 := m21 * m33 - m31 * m23 in
  let coef06 := m11 * m33 - m31 * m13 in
  let coef07 := m11 * m23 - m21 * m13 in
  let coef08 := m21 * m32 - m31 * m22 in
  let coef10 := m11 * m32 - m31 * m12 in
  let coef11 := m11 * m22 - m21 * m12 in
  let coef12 := m20 * m33 - m30 * m23 in
  let coef14 := m10 * m33 - m30 * m13 in
  let coef15 := m10 * m23 - m20 * m13 in
  let coef16 := m20 * m32 - m30 * m22 in
  let coef18 := m10 * m32 - m30 * m12 in
  let coef19 := m10 * m22 - m20 * m12 in
  let coef20 := m20 * m31 - m30 * m21 in
  let coef22 := m10 * m31 - m30 * m11 in
  let coef23 := m10 * m21 - m20 * m11 in
  let fac0 := mkvec4 coef00 coef00 coef02 coef03 in
  let fac1 := mkvec4 coef04 coef04 coef06 coef07 in
  let fac2 := mkvec4 coef08 coef08 coef10 coef11 in
  let fac3 := mkvec4 coef12 coef12 coef14 coef15 in
  let fac4 := mkvec4 coef16 coef16 coef18 coef19 in
  let fac5 := mkvec4 coef20 coef20 coef22 coef23 in
  let vec0 := mkvec4 m10 m00 m00 m00 in
  let vec1 := mkvec4 m11 m01 m01 m01 in
  let vec2 := mkvec4 m12 m02 m02 m02 in
  let vec3 := mkvec4 m13 m03 m03 m03 in
  let inv0 := vadd (vsub (vmul vec1 fac0) (vmul vec2 fac1)) (vmul vec3 fac2) in
  let inv1 := vadd (vsub (vmul vec0 fac0) (vmul vec2 fac3)) (vmul vec3 fac4) in
  let inv2 := vadd (vsub (vmul vec0 fac1) (vmul vec1 fac3)) (vmul vec3 fac5) in
  let inv3 := vadd (vsub (vmul vec0 fac2) (vmul vec1 fac4)) (vmul vec2 fac5) in
  let signA := mkvec4 1 (-1) 1 (-1) in
  let signB := mkvec4 (-1) 1 (-1) 1 in
  let inv := mkmat4 (vmul inv0 signA) (vmul inv1 signB)
                    (vmul inv2 signA) (vmul inv3 signB) in
  let row0 := mkvec4 (e0 (c0 inv)) (e0 (c1 inv)) (e0 (c2 inv)) (e0 (c3 inv)) in
  let dot0 := vmul (c0 m) row0 in
  let dot1 := (e0 dot0 + e1 dot0) + (e2 dot0 + e3 dot0) in
  let oneOverDeterminant := 1 / dot1 in
  mat_scale inv oneOverDeterminant.

(** [operator-(vec3, vec3)] and [glm::cross] *)
Definition sub3 (a b : vec3) : vec3 := mkvec3 (x a - x b) (y a - y b) (z a - z b).

Definition cross (a b : vec3) : vec3 :=
  mkvec3 (y a * z b - y b * z a)
         (z a * x b - z b * x a)
         (x a * y b - x b * y a).

(** [glm::lookAt(eye, center, up)], the right-handed variant GLM selects by
    default. *)
Definition lookAt (eye center up : vec3) : mat4 :=
  let f := normalize (sub3 center eye) in
  let s := normalize (cross f up) in
  let u := cross s f in
  mkmat4 (mkvec4 (x s) (x u) (- x f) 0)
         (mkvec4 (y s) (y u) (- y f) 0)
         (mkvec4 (z s) (z u) (- z f) 0)
         (mkvec4 (- dot s eye) (- dot u eye) (dot f eye) 1).

End glm.

(** ** OpenGL: the calls asr.h issues, and the part of their meaning used here *)

(** Enumerants, with their values from the OpenGL headers. *)
Definition GL_POINTS : Z := 0x0000.
Definition GL_LINES : Z := 0x0001.
Definition GL_LINE_LOOP : Z := 0x0002.
Definition GL_LINE_STRIP : Z := 0x0003.
Definition GL_TRIANGLES : Z := 0x0004.
Definition GL_TRIANGLE_STRIP : Z := 0x0005.
Definition GL_TRIANGLE_FAN : Z := 0x0006.
Definition GL_DEPTH_BUFFER_BIT : Z := 0x00000100.
Definition GL_COLOR_BUFFER_BIT : Z := 0x00004000.
Definition GL_LESS : Z := 0x0201.
Definition GL_BACK : Z := 0x0405.
Definition GL_CCW : Z := 0x0901.
Definition GL_CULL_FACE : Z := 0x0B44.
Definition GL_DEPTH_TEST : Z := 0x0B71.
Definition GL_UNSIGNED_INT : Z := 0x1405.
Definition GL_FLOAT : Z := 0x1406.
Definition GL_PROGRAM_POINT_SIZE : Z := 0x8642.
Definition GL_ARRAY_BUFFER : Z := 0x8892.
Definition GL_ELEMENT_ARRAY_BUFFER : Z := 0x8893.
Definition GL_STATIC_DRAW : Z := 0x88E4.

(** What [glBufferData] is handed: the vertices seen as a flat array of
    floats, or the array of indices. *)
Inductive BufferContents :=
| FloatData (floats : list R)
| UIntData (uints : list Z).

(** One constructor per OpenGL entry point used by the header.  The [name]
    argument of the [glGen*] calls is the name the driver wrote through the
    pointer. *)
Inductive GLCall :=
| glClearColor (red green blue alpha : R)
| glViewport (x y width height : Z)
| glEnable (cap : Z)
| glDisable (cap : Z)
| glClear (mask : Z)
| glLineWidth (width : R)
| glFrontFace (mode : Z)
| glCullFace (mode : Z)
| glDepthFunc (func : Z)
| glUseProgram (program : Z)
| glDeleteProgram (program : Z)
| glUniform1f (location : Z) (v0 : R)
| glUniformMatrix4fv (location : Z) (count : Z) (transpose : bool) (value : glm.mat4)
| glDrawElements (mode : Z) (count : Z) (type : Z) (indices : Z)
| glGenVertexArrays (n : Z) (name : Z)
| glBindVertexArray (array : Z)
| glDeleteVertexArrays (n : Z) (name : Z)
| glGenBuffers (n : Z) (name : Z)
| glBindBuffer (target : Z) (buffer : Z)
| glBufferData (target : Z) (size : Z) (data : BufferContents) (usage : Z)
| glDeleteBuffers (n : Z) (name : Z)
| glEnableVertexAttribArray (index : Z)
| glVertexAttribPointer (index : Z) (size : Z) (type : Z) (normalized : bool)
                        (stride : Z) (pointer : Z).

(** [glIsEnabled(cap)] after the calls of the log (most recent first).  The
    capabilities asr.h touches are all disabled in a fresh context. *)
Fixpoint gl_is_enabled (cap : Z) (calls : list GLCall) : bool :=
  match calls with
  | [] => false
  | glEnable c :: earlier => if (c =? cap)%Z then true else gl_is_enabled cap earlier
  | glDisable c :: earlier => if (c =? cap)%Z then false else gl_is_enabled cap earlier
  | _ :: earlier => gl_is_enabled cap earlier
  end.

(** The draws a buffer has received since it was last cleared: [glClear]
    clears the buffers whose bit is set in its mask. *)
Fixpoint gl_draws_since_clear (buffer_bit : Z) (calls : list GLCall) : list GLCall :=
  match calls with
  | [] => []
  | glClear mask :: earlier =>
      if (Z.land mask buffer_bit =? 0)%Z
      then gl_draws_since_clear buffer_bit earlier
      else []
  | glDrawElements m c t i :: earlier =>
      glDrawElements m c t i :: gl_draws_since_clear buffer_bit earlier
  | _ :: earlier => gl_draws_since_clear buffer_bit earlier
  end.

(** The matrix most recently sent to a uniform location, if any. *)
Fixpoint gl_uniform_matrix (location : Z) (calls : list GLCall) : option glm.mat4 :=
  match calls with
  | [] => None
  | glUniformMatrix4fv l _ _ value :: earlier =>
      if (l =? location)%Z then Some value else gl_uniform_matrix location earlier
  | _ :: earlier => gl_uniform_matrix location earlier
  end.

(** ** Integer conversions of the C++ *)

(** conversion to a 32-bit unsigned type ([GLuint], [unsigned int]) *)
Definition to_uint32 (n : Z) : Z := (n mod 2 ^ 32)%Z.

(** conversion to a 32-bit signed type ([int], [GLint], [GLsizei]) *)
Definition to_int32 (n : Z) : Z := ((n + 2 ^ 31) mod 2 ^ 32 - 2 ^ 31)%Z.

(** conversion to [size_t] *)
Definition to_size_t (n : Z) : Z := (n mod 2 ^ 64)%Z.

(** ** namespace asr *)

Module asr.

Local Open Scope Z_scope.

(** *** Outcomes: a value, a failed [assert], or undefined behaviour *)

Inductive Result (A : Type) : Type :=
| Ok (a : A)
| AssertionFailure
| Undefined.

Arguments Ok {A} a.
Arguments AssertionFailure {A}.
Arguments Undefined {A}.

Definition bind {A B : Type} (c : Result A) (k : A -> Result B) : Result B :=
  match c with
  | Ok a => k a
  | AssertionFailure => AssertionFailure
  | Undefined => Undefined
  end.

Notation "v <- c ;; k" := (bind c (fun v => k))
  (at level 61, c at next level, right associativity).

(** *** Data *)

(** The unscoped enumeration has the values 0 to 7: its seven enumerators,
    and the value 7, which names none of them. *)
Inductive GeometryType :=
| Points | Lines | LineLoop | LineStrip | Triangles | TriangleFan | TriangleStrip
| Unnamed.

Record Vertex := mkVertex {
  x : R; y : R; z : R;
  r : R; g : R; b : R; a : R
}.

Record GPUGeometry := mkGPUGeometry {
  type : GeometryType;
  vertex_count : Z;          (* unsigned int *)
  vertex_array_object : Z;   (* int *)
  vertex_buffer_object : Z;  (* int *)
  index_buffer_object : Z    (* int *)
}.

Inductive MatrixMode := Model | View | Projection.

(** Addresses of the caller's [GPUGeometry] objects. *)
Definition ptr := nat.

(** A [std::stack<glm::mat4>], top of the stack first. *)
Definition matrix_stack := list glm.mat4.

(** [std::chrono::system_clock::time_point], in ticks of the clock. *)
Definition time_point := Z.

(** The globals of the namespace, the log of the OpenGL calls issued so far
    (most recent first), and the caller's memory for geometry objects, which
    the header reaches through [current_gpu_geometry] and through the
    reference passed to [destroy_es2_gpu_geometry]. *)
Record State := mkState {
  window_width : Z;
  window_height : Z;
  shader_program : Z;
  position_attribute_location : Z;
  color_attribute_location : Z;
  time_uniform_location : Z;
  mvp_matrix_uniform_location : Z;
  current_gpu_geometry : option ptr;            (* None is nullptr *)
  model_matrix_stack : matrix_stack;
  view_matrix_stack : matrix_stack;
  projection_matrix_stack : matrix_stack;
  current_matrix_stack : MatrixMode;            (* which stack is pointed to *)
  rendering_start_time : time_point;
  gl_calls : list GLCall;
  objects : ptr -> option GPUGeometry
}.

(** The state the static initialisers produce: all three stacks are empty
    until [prepare_for_es2_rendering] runs. *)
Definition initial_state : State :=
  mkState 500 500 0 (-1) (-1) (-1) (-1) None [] [] [] Model 0 [] (fun _ => None).

(** *** Field updates *)

Definition with_shader (program position color time : Z) (s : State) : State :=
  mkState (window_width s) (window_height s)
          program position color time (mvp_matrix_uniform_location s)
          (current_gpu_geometry s)
          (model_matrix_stack s) (view_matrix_stack s) (projection_matrix_stack s)
          (current_matrix_stack s) (rendering_start_time s) (gl_calls s) (objects s).

Definition with_current_gpu_geometry (p : option ptr) (s : State) : State :=
  mkState (window_width s) (window_height s)
          (shader_program s) (position_attribute_location s)
          (color_attribute_location s) (time_uniform_location s)
          (mvp_matrix_uniform_location s)
          p
          (model_matrix_stack s) (view_matrix_stack s) (projection_matrix_stack s)
          (current_matrix_stack s) (rendering_start_time s) (gl_calls s) (objects s).

Definition with_stacks (model view projection : matrix_stack) (s : State) : State :=
  mkState (window_width s) (window_height s)
          (shader_program s) (position_attribute_location s)
          (color_attribute_location s) (time_uniform_location s)
          (mvp_matrix_uniform_location s)
          (current_gpu_geometry s)
          model view projection
          (current_matrix_stack s) (rendering_start_time s) (gl_calls s) (objects s).

Definition with_current_matrix_stack (mode : MatrixMode) (s : State) : State :=
  mkState (window_width s) (window_height s)
          (shader_program s) (position_attribute_location s)
          (color_attribute_location s) (time_uniform_location s)
          (mvp_matrix_uniform_location s)
          (current_gpu_geometry s)
          (model_matrix_stack s) (view_matrix_stack s) (projection_matrix_stack s)
          mode (rendering_start_time s) (gl_calls s) (objects s).

Definition with_rendering_start_time (t : time_point) (s : State) : State :=
  mkState (window_width s) (window_height s)
          (shader_program s) (position_attribute_location s)
          (color_attribute_location s) (time_uniform_location s)
          (mvp_matrix_uniform_location s)
          (current_gpu_geometry s)
          (model_matrix_stack s) (view_matrix_stack s) (projection_matrix_stack s)
          (current_matrix_stack s) t (gl_calls s) (objects s).

Definition with_gl_calls (calls : list GLCall) (s : State) : State :=
  mkState (window_width s) (window_height s)
          (shader_program s) (position_attribute_location s)
          (color_attribute_location s) (time_uniform_location s)
          (mvp_matrix_uniform_location s)
          (current_gpu_geometry s)
          (model_matrix_stack s) (view_matrix_stack s) (projection_matrix_stack s)
          (current_matrix_stack s) (rendering_start_time s) calls (objects s).

Definition with_objects (mem : ptr -> option GPUGeometry) (s : State) : State :=
  mkState (window_width s) (window_height s)
          (shader_program s) (position_attribute_location s)
          (color_attribute_location s) (time_uniform_location s)
          (mvp_matrix_uniform_location s)
          (current_gpu_geometry s)
          (model_matrix_stack s) (view_matrix_stack s) (projection_matrix_stack s)
          (current_matrix_stack s) (rendering_start_time s) (gl_calls s) mem.

(** Issue one OpenGL call. *)
Definition gl (call : GLCall) (s : State) : State :=
  with_gl_calls (call :: gl_calls s) s.

(** Write a geometry object at an address of the caller's memory. *)
Definition store (p : ptr) (geometry : GPUGeometry) (s : State) : State :=
  with_objects (fun q => if Nat.eqb q p then Some geometry else objects s q) s.

(** Dereference a geometry pointer; a pointer to no object is undefined. *)
Definition deref (p : ptr) (s : State) : Result GPUGeometry :=
  match objects s p with
  | Some geometry => Ok geometry
  | None => Undefined
  end.

(** *** std::stack *)

(** [top()]: undefined on an empty stack. *)
Definition top (st : matrix_stack) : Result glm.mat4 :=
  match st with
  | [] => Undefined
  | m :: _ => Ok m
  end.

(** [pop()]: undefined on an empty stack. *)
Definition pop (st : matrix_stack) : Result matrix_stack :=
  match st with
  | [] => Undefined
  | _ :: below => Ok below
  end.

Definition push (m : glm.mat4) (st : matrix_stack) : matrix_stack := m :: st.

Definition empty (st : matrix_stack) : bool :=
  match st with
  | [] => true
  | _ :: _ => false
  end.

(** The stack [current_matrix_stack] points to, read and written. *)
Definition get_stack (mode : MatrixMode) (s : State) : matrix_stack :=
  match mode with
  | Model => model_matrix_stack s
  | View => view_matrix_stack s
  | Projection => projection_matrix_stack s
  end.

Definition set_stack (mode : MatrixMode) (st : matrix_stack) (s : State) : State :=
  match mode with
  | Model => with_stacks st (view_matrix_stack s) (projection_matrix_stack s) s
  | View => with_stacks (model_matrix_stack s) st (projection_matrix_stack s) s
  | Projection => with_stacks (model_matrix_stack s) (view_matrix_stack s) st s
  end.

Definition current_stack (s : State) : matrix_stack :=
  get_stack (current_matrix_stack s) s.

Definition set_current_stack (st : matrix_stack) (s : State) : State :=
  set_stack (current_matrix_stack s) st s.

(** *** Shader Program Handling *)

Definition destroy_es2_shader_program (s : State) : State :=
  let s := gl (glUseProgram 0) s in
  let s := gl (glDeleteProgram (shader_program s)) s in
  with_shader 0 (-1) (-1) (-1) s.

(** *** GPUGeometry Buffer Handling *)

Definition convert_geometry_type_to_es2_geometry_type (t : GeometryType) : Z :=
  match t with
  | Points => GL_POINTS
  | Lines => GL_LINES
  | LineLoop => GL_LINE_LOOP
  | LineStrip => GL_LINE_STRIP
  | Triangles => GL_TRIANGLES
  | TriangleFan => GL_TRIANGLE_FAN
  | TriangleStrip => GL_TRIANGLE_STRIP
  | _ => GL_TRIANGLES                       (* the return after the switch *)
  end.

(** [reinterpret_cast<const float *>(vertices.data())] *)
Definition vertex_floats (v : Vertex) : list R :=
  [x v; y v; z v; r v; g v; b v; a v].

Section Device.

(** The name the driver writes for a [glGenVertexArrays] or [glGenBuffers]
    call, given the calls it has received so far.  The variable written to
    is initialised with 0 and is not checked afterwards: a call that writes
    nothing is the name 0. *)
Variable gl_gen_name : list GLCall -> Z.

Definition generate_es2_gpu_geometry
           (t : GeometryType) (vertices : list Vertex) (indices : list Z)
           (s : State) : GPUGeometry * State :=
  let geometry_vertex_count := to_uint32 (Z.of_nat (length indices)) in
  let geometry_type := t in

  let vertex_array_object := gl_gen_name (gl_calls s) in
  let s := gl (glGenVertexArrays 1 vertex_array_object) s in
  let geometry_vertex_array_object := to_int32 vertex_array_object in
  let s := gl (glBindVertexArray vertex_array_object) s in

  let vertex_buffer_object := gl_gen_name (gl_calls s) in
  let s := gl (glGenBuffers 1 vertex_buffer_object) s in
  let geometry_vertex_buffer_object := to_int32 vertex_buffer_object in
  let s := gl (glBindBuffer GL_ARRAY_BUFFER vertex_buffer_object) s in
  let s := gl (glBufferData GL_ARRAY_BUFFER
                            (to_size_t (Z.of_nat (length vertices) * 7 * 4))
                            (FloatData (flat_map vertex_floats vertices))
                            GL_STATIC_DRAW) s in

  let index_buffer_object := gl_gen_name (gl_calls s) in
  let s := gl (glGenBuffers 1 index_buffer_object) s in
  let geometry_index_buffer_object := to_int32 index_buffer_object in
  let s := gl (glBindBuffer GL_ELEMENT_ARRAY_BUFFER index_buffer_object) s in
  let s := gl (glBufferData GL_ELEMENT_ARRAY_BUFFER
                            (to_size_t (Z.of_nat (length indices) * 4))
                            (UIntData indices)
                            GL_STATIC_DRAW) s in

  let stride := 4 * 7 in
  let s := gl (glEnableVertexAttribArray
                 (to_uint32 (position_attribute_location s))) s in
  let s := gl (glVertexAttribPointer
                 (to_uint32 (position_attribute_location s))
                 3 GL_FLOAT false stride 0) s in
  let s := gl (glEnableVertexAttribArray
                 (to_uint32 (color_attribute_location s))) s in
  let s := gl (glVertexAttribPointer
                 (to_uint32 (color_attribute_location s))
                 4 GL_FLOAT false stride (4 * 3)) s in

  let s := gl (glBindVertexArray 0) s in
  let s := gl (glBindBuffer GL_ARRAY_BUFFER 0) s in
  let s := gl (glBindBuffer GL_ELEMENT_ARRAY_BUFFER 0) s in

  (mkGPUGeometry geometry_type geometry_vertex_count
                 geometry_vertex_array_object
                 geometry_vertex_buffer_object
                 geometry_index_buffer_object,
   s).

End Device.

Definition set_es2_gpu_geometry_current (geometry : option ptr) (s : State)
  : Result State :=
  let s := with_current_gpu_geometry geometry s in
  match geometry with
  | Some p =>
      pointee <- deref p s ;;
      Ok (gl (glBindVertexArray (to_uint32 (vertex_array_object pointee))) s)
  | None =>
      Ok (gl (glBindVertexArray 0) s)
  end.

(** The geometry is passed by reference: it is updated where it lives. *)
Definition destroy_es2_gpu_geometry (geometry : ptr) (s : State) : Result State :=
  pointee <- deref geometry s ;;
  let vertex_array_object_name := to_uint32 (vertex_array_object pointee) in
  let vertex_buffer_object_name := to_uint32 (vertex_buffer_object pointee) in
  let index_buffer_object_name := to_uint32 (index_buffer_object pointee) in

  let s := gl (glBindVertexArray 0) s in
  let s := gl (glDeleteVertexArrays 1 vertex_array_object_name) s in
  let pointee := mkGPUGeometry (type pointee) (vertex_count pointee)
                               0
                               (vertex_buffer_object pointee)
                               (index_buffer_object pointee) in

  let s := gl (glBindBuffer GL_ARRAY_BUFFER 0) s in
  let s := gl (glDeleteBuffers 1 vertex_buffer_object_name) s in
  let pointee := mkGPUGeometry (type pointee) (vertex_count pointee)
                               (vertex_array_object pointee)
                               0
                               (index_buffer_object pointee) in

  let s := gl (glBindBuffer GL_ELEMENT_ARRAY_BUFFER 0) s in
  let s := gl (glDeleteBuffers 1 index_buffer_object_name) s in
  let pointee := mkGPUGeometry (type pointee) (vertex_count pointee)
                               (vertex_array_object pointee)
                               (vertex_buffer_object pointee)
                               0 in
  Ok (store geometry pointee s).

(** *** Transformation *)

Definition set_matrix_mode (mode : MatrixMode) (s : State) : State :=
  match mode with
  | Model => with_current_matrix_stack Model s
  | View => with_current_matrix_stack View s
  | Projection => with_current_matrix_stack Projection s
  end.

Definition translate_matrix (translation : glm.vec3) (s : State) : Result State :=
  current_matrix <- top (current_stack s) ;;
  let translated_matrix := glm.translate current_matrix translation in
  popped <- pop (current_stack s) ;;
  Ok (set_current_stack (push translated_matrix popped) s).

Definition rotate_matrix (rotation : glm.vec3) (s : State) : Result State :=
  current_matrix <- top (current_stack s) ;;
  let rotated_matrix := current_matrix in
  let rotated_matrix :=
    glm.rotate rotated_matrix (glm.y rotation) (glm.mkvec3 0 1 0) in
  let rotated_matrix :=
    glm.rotate rotated_matrix (glm.x rotation) (glm.mkvec3 1 0 0) in
  let rotated_matrix :=
    glm.rotate rotated_matrix (glm.z rotation) (glm.mkvec3 0 0 1) in
  popped <- pop (current_stack s) ;;
  Ok (set_current_stack (push rotated_matrix popped) s).

Definition scale_matrix (scale : glm.vec3) (s : State) : Result State :=
  current_matrix <- top (current_stack s) ;;
  let scaled_matrix := glm.scale current_matrix scale in
  popped <- pop (current_stack s) ;;
  Ok (set_current_stack (push scaled_matrix popped) s).

Definition load_matrix (matrix : glm.mat4) (s : State) : Result State :=
  popped <- pop (current_stack s) ;;
  Ok (set_current_stack (push matrix popped) s).

Definition load_identity_matrix (s : State) : Result State :=
  load_matrix (glm.mat4_diag 1) s.

Definition load_look_at_matrix (position target : glm.vec3) (s : State)
  : Result State :=
  let up := glm.mkvec3 0 1 0 in
  load_matrix (glm.lookAt position target up) s.

Definition load_orthographic_projection_matrix
           (zoom near_plane far_plane : R) (s : State) : Result State :=
  let aspect_ratio := (IZR (window_width s) / IZR (window_height s))%R in
  let left := (- (zoom * aspect_ratio))%R in
  let right := (zoom * aspect_ratio)%R in
  let bottom := (- zoom)%R in
  let top := zoom in
  load_matrix (glm.ortho left right bottom top near_plane far_plane) s.

Definition push_matrix (s : State) : Result State :=
  top_matrix <- top (current_stack s) ;;
  Ok (set_current_stack (push top_matrix (current_stack s)) s).

Definition pop_matrix (s : State) : Result State :=
  popped <- pop (current_stack s) ;;
  let s := set_current_stack popped s in
  if empty (current_stack s)
  then Ok (set_current_stack (push (glm.mat4_diag 1) (current_stack s)) s)
  else Ok s.

(** *** Rendering *)

(** [while (!stack.empty()) stack.pop();] *)
Fixpoint pop_until_empty (st : matrix_stack) : matrix_stack :=
  match st with
  | [] => []
  | _ :: below => pop_until_empty below
  end.

(** [now] is what [std::chrono::system_clock::now()] returns. *)
Definition prepare_for_es2_rendering (now : time_point) (s : State) : State :=
  let s := gl (glClearColor 0 0 0 0) s in
  let s := gl (glViewport 0 0 (window_width s) (window_height s)) s in
  let s := gl (glEnable GL_PROGRAM_POINT_SIZE) s in

  let model := push (glm.mat4_diag 1) (pop_until_empty (model_matrix_stack s)) in
  let view := push (glm.mat4_diag 1) (pop_until_empty (view_matrix_stack s)) in
  let projection :=
    push (glm.mat4_diag 1) (pop_until_empty (projection_matrix_stack s)) in
  let s := with_stacks model view projection s in

  with_rendering_start_time now s.

Definition prepare_to_render_es2_frame (s : State) : State :=
  gl (glClear (Z.lor GL_COLOR_BUFFER_BIT GL_DEPTH_BUFFER_BIT)) s.

Definition set_es2_line_width (line_width : R) (s : State) : State :=
  gl (glLineWidth line_width) s.

Definition enable_face_culling (s : State) : State :=
  let s := gl (glEnable GL_CULL_FACE) s in
  let s := gl (glFrontFace GL_CCW) s in
  gl (glCullFace GL_BACK) s.

Definition disable_face_culling (s : State) : State :=
  gl (glDisable GL_CULL_FACE) s.

Definition enable_depth_test (s : State) : State :=
  let s := gl (glEnable GL_DEPTH_TEST) s in
  gl (glDepthFunc GL_LESS) s.

Definition disable_depth_test (s : State) : State :=
  gl (glDisable GL_DEPTH_TEST) s.

Section Clock.

(** Ticks of [system_clock] per millisecond; [duration_cast] truncates. *)
Variable ticks_per_millisecond : Z.

Definition render_current_es2_gpu_geometry (now : time_point) (s : State)
  : Result State :=
  match current_gpu_geometry s with
  | None => AssertionFailure                  (* assert(current_gpu_geometry) *)
  | Some geometry =>
      let s := gl (glUseProgram (shader_program s)) s in

      let s :=
        if time_uniform_location s =? -1 then s
        else
          let time :=
            IZR (Z.quot (now - rendering_start_time s) ticks_per_millisecond) in
          gl (glUniform1f (time_uniform_location s) (time / 1000)%R) s in

      s <- (if mvp_matrix_uniform_location s =? -1 then Ok s
            else
              model_matrix <- top (model_matrix_stack s) ;;
              view_top <- top (view_matrix_stack s) ;;
              let view_matrix := glm.inverse view_top in
              projection_matrix <- top (projection_matrix_stack s) ;;
              let model_view_projection_matrix :=
                glm.mat_mul (glm.mat_mul projection_matrix view_matrix)
                            model_matrix in
              Ok (gl (glUniformMatrix4fv (mvp_matrix_uniform_location s)
                                         1 false
                                         model_view_projection_matrix) s)) ;;

      pointee <- deref geometry s ;;
      Ok (gl (glDrawElements
                (convert_geometry_type_to_es2_geometry_type (type pointee))
                (to_int32 (vertex_count pointee))
                GL_UNSIGNED_INT
                0) s)
  end.

End Clock.

(** *** Sequences of transform-stack operations *)

Inductive StackOp :=
| OpSetMatrixMode (mode : MatrixMode)
| OpPush
| OpPop
| OpLoad (matrix : glm.mat4)
| OpTranslate (translation : glm.vec3)
| OpRotate (rotation : glm.vec3)
| OpScale (scale : glm.vec3).

Definition run_op (op : StackOp) (s : State) : Result State :=
  match op with
  | OpSetMatrixMode mode => Ok (set_matrix_mode mode s)
  | OpPush => push_matrix s
  | OpPop => pop_matrix s
  | OpLoad matrix => load_matrix matrix s
  | OpTranslate translation => translate_matrix translation s
  | OpRotate rotation => rotate_matrix rotation s
  | OpScale scale => scale_matrix scale s
  end.

Fixpoint run_ops (ops : list StackOp) (s : State) : Result State :=
  match ops with
  | [] => Ok s
  | op :: later => s' <- run_op op s ;; run_ops later s'
  end.

End asr.

(** ** Vocabulary of the specification *)

(** The elementary rotation matrices, written column by column:
    [Ry] is the yaw about the Y axis, [Rx] the pitch about the X axis and
    [Rz] the roll about the Z axis. *)
Definition Ry (angle : R) : glm.mat4 :=
  glm.mkmat4 (glm.mkvec4 (cos angle) 0 (- sin angle) 0)
             (glm.mkvec4 0 1 0 0)
             (glm.mkvec4 (sin angle) 0 (cos angle) 0)
             (glm.mkvec4 0 0 0 1).

Definition Rx (angle : R) : glm.mat4 :=
  glm.mkmat4 (glm.mkvec4 1 0 0 0)
             (glm.mkvec4 0 (cos angle) (sin angle) 0)
             (glm.mkvec4 0 (- sin angle) (cos angle) 0)
             (glm.mkvec4 0 0 0 1).

Definition Rz (angle : R) : glm.mat4 :=
  glm.mkmat4 (glm.mkvec4 (cos angle) (sin angle) 0 0)
             (glm.mkvec4 (- sin angle) (cos angle) 0 0)
             (glm.mkvec4 0 0 1 0)
             (glm.mkvec4 0 0 0 1).

(** The determinant of a 4x4 matrix, by Laplace expansion along its first
    row (the first component of each column). *)
Definition determinant (m : glm.mat4) : R :=
  let a := glm.c0 m in let b := glm.c1 m in
  let d := glm.c2 m in let f := glm.c3 m in
  let minor3 (p q r : glm.vec4) : R :=
    (glm.e1 p * (glm.e2 q * glm.e3 r - glm.e2 r * glm.e3 q)
     - glm.e1 q * (glm.e2 p * glm.e3 r - glm.e2 r * glm.e3 p)
     + glm.e1 r * (glm.e2 p * glm.e3 q - glm.e2 q * glm.e3 p))%R in
  (glm.e0 a * minor3 b d f - glm.e0 b * minor3 a d f
   + glm.e0 d * minor3 a b f - glm.e0 f * minor3 a b d)%R.

(** None of the three transform stacks is empty. *)
Definition stacks_nonempty (s : asr.State) : Prop :=
  asr.model_matrix_stack s <> [] /\
  asr.view_matrix_stack s <> [] /\
  asr.projection_matrix_stack s <> [].

(** A geometry whose three device handles are all set, and one whose three
    handles are all reset. *)
Definition fully_constructed (geometry : asr.GPUGeometry) : Prop :=
  asr.vertex_array_object geometry <> 0%Z /\
  asr.vertex_buffer_object geometry <> 0%Z /\
  asr.index_buffer_object geometry <> 0%Z.

Definition fully_destroyed (geometry : asr.GPUGeometry) : Prop :=
  asr.vertex_array_object geometry = 0%Z /\
  asr.vertex_buffer_object geometry = 0%Z /\
  asr.index_buffer_object geometry = 0%Z.

(** The operations that rewrite the top of the current stack in place:
    load, translate, rotate and scale. *)
Definition edits_top_only (op : asr.StackOp) : bool :=
  match op with
  | asr.OpLoad _ | asr.OpTranslate _ | asr.OpRotate _ | asr.OpScale _ => true
  | asr.OpSetMatrixMode _ | asr.OpPush | asr.OpPop => false
  end.

(** Sum and component-wise product of two [vec3]. *)
Definition add3 (u v : glm.vec3) : glm.vec3 :=
  glm.mkvec3 (glm.x u + glm.x v) (glm.y u + glm.y v) (glm.z u + glm.z v).

Definition mul3 (u v : glm.vec3) : glm.vec3 :=
  glm.mkvec3 (glm.x u * glm.x v) (glm.y u * glm.y v) (glm.z u * glm.z v).

(** A [vec3] as a point in homogeneous coordinates. *)
Definition point (v : glm.vec3) : glm.vec4 :=
  glm.mkvec4 (glm.x v) (glm.y v) (glm.z v) 1.

(** Remove one occurrence of a name from a list of names. *)
Fixpoint remove_one (name : Z) (names : list Z) : list Z :=
  match names with
  | [] => []
  | n :: rest => if (n =? name)%Z then rest else n :: remove_one name rest
  end.

(** The vertex-array names, and the buffer names, that the log has generated
    and not deleted since; deleting a name that is not outstanding does
    nothing. *)
Fixpoint gl_outstanding_vertex_arrays (calls : list GLCall) : list Z :=
  match calls with
  | [] => []
  | glGenVertexArrays _ name :: earlier =>
      name :: gl_outstanding_vertex_arrays earlier
  | glDeleteVertexArrays _ name :: earlier =>
      remove_one name (gl_outstanding_vertex_arrays earlier)
  | _ :: earlier => gl_outstanding_vertex_arrays earlier
  end.

Fixpoint gl_outstanding_buffers (calls : list GLCall) : list Z :=
  match calls with
  | [] => []
  | glGenBuffers _ name :: earlier => name :: gl_outstanding_buffers earlier
  | glDeleteBuffers _ name :: earlier =>
      remove_one name (gl_outstanding_buffers earlier)
  | _ :: earlier => gl_outstanding_buffers earlier
  end.

(** The float most recently sent to a uniform location, if any. *)
Fixpoint gl_uniform_float (location : Z) (calls : list GLCall) : option R :=
  match calls with
  | [] => None
  | glUniform1f l v0 :: earlier =>
      if (l =? location)%Z then Some v0 else gl_uniform_float location earlier
  | _ :: earlier => gl_uniform_float location earlier
  end.

(** ** Sample states *)

(** The state right after the session starts, from the static initialisers. *)
Definition session_state : asr.State :=
  asr.prepare_for_es2_rendering 0%Z asr.initial_state.

(** The session state with [translate(1, 0, 0)] loaded on the Model stack. *)
Definition translated_state : asr.State :=
  asr.set_stack asr.Model
                [glm.translate glm.identity (glm.mkvec3 1 0 0)]
                session_state.

(** The initial state after [enable_depth_test] and [enable_face_culling]. *)
Definition culling_state : asr.State :=
  asr.enable_face_culling (asr.enable_depth_test asr.initial_state).

(** A geometry object of the caller: a triangle with device names 1, 2, 3. *)
Definition triangle : asr.GPUGeometry :=
  asr.mkGPUGeometry asr.Triangles 3 1 2 3.

(** A state ready to draw: program 1 with attribute locations 0 and 1, no
    time uniform and the MVP uniform at location 0; the triangle lives at
    address 0 and is selected; the Model stack holds [translate(1, 0, 0)],
    the View and Projection stacks the identity. *)
Definition drawing_state : asr.State :=
  asr.mkState 500 500 1 0 1 (-1) 0 (Some 0%nat)
              [glm.translate glm.identity (glm.mkvec3 1 0 0)]
              [glm.identity] [glm.identity]
              asr.Model 0%Z []
              (fun q => if Nat.eqb q 0 then Some triangle else None).

(** A driver whose [glGen*] calls write nothing: the variable keeps the 0 it
    was initialised with. *)
Definition silent_driver (calls : list GLCall) : Z := 0%Z.

(** A driver that hands out names by counting the calls it has received. *)
Definition counting_driver (calls : list GLCall) : Z :=
  (1 + Z.of_nat (length calls) mod (2 ^ 32 - 1))%Z.

(** A second geometry object: a line strip of five indices. *)
Definition strip : asr.GPUGeometry :=
  asr.mkGPUGeometry asr.LineStrip 5 4 5 6.

(** The drawing state with the strip at address 1 beside the triangle, the
    camera moved to (0, 0, 5) on the View stack, and a time uniform at
    location 2 with the session started at tick 1000. *)
Definition camera_state : asr.State :=
  asr.mkState 500 500 1 0 1 2 0 (Some 0%nat)
              [glm.translate glm.identity (glm.mkvec3 1 0 0)]
              [glm.translate glm.identity (glm.mkvec3 0 0 5)]
              [glm.identity]
              asr.Model 1000%Z []
              (fun q => if Nat.eqb q 0 then Some triangle
                        else if Nat.eqb q 1 then Some strip else None).

(** A state whose Model and View stacks have the same top. *)
Definition same_pose_state : asr.State :=
  asr.mkState 500 500 1 0 1 (-1) 0 (Some 0%nat)
              [glm.translate glm.identity (glm.mkvec3 1 0 0)]
              [glm.translate glm.identity (glm.mkvec3 1 0 0)]
              [glm.identity]
              asr.Model 0%Z []
              (fun q => if Nat.eqb q 0 then Some triangle else None).

(** ** Matrix algebra *)

Lemma vec4_eq a0 a1 a2 a3 b0 b1 b2 b3 :
  a0 = b0 -> a1 = b1 -> a2 = b2 -> a3 = b3 ->
  glm.mkvec4 a0 a1 a2 a3 = glm.mkvec4 b0 b1 b2 b3.
Proof. intros; subst; reflexivity. Qed.

Lemma mat4_eq a0 a1 a2 a3 b0 b1 b2 b3 :
  a0 = b0 -> a1 = b1 -> a2 = b2 -> a3 = b3 ->
  glm.mkmat4 a0 a1 a2 a3 = glm.mkmat4 b0 b1 b2 b3.
Proof. intros; subst; reflexivity. Qed.

Ltac glm_unfold :=
  cbv beta iota zeta delta
    [glm.inverse glm.identity glm.mat4_diag glm.mat_scale glm.mat_mul glm.mat_vec
     glm.vmul glm.vadd glm.vsub glm.vscale glm.rotate glm.translate glm.scale
     glm.ortho glm.dot Rx Ry Rz
     glm.c0 glm.c1 glm.c2 glm.c3 glm.e0 glm.e1 glm.e2 glm.e3 glm.x glm.y glm.z].

(** Equality of two matrices, entry by entry. *)
Ltac mat4_entries := apply mat4_eq; apply vec4_eq.

Section MatrixAlgebra.

Local Open Scope R_scope.

Lemma mat_mul_identity_l (m : glm.mat4) : glm.mat_mul glm.identity m = m.
Proof.
  destruct m as [[a0 a1 a2 a3] [b0 b1 b2 b3] [d0 d1 d2 d3] [f0 f1 f2 f3]].
  glm_unfold. mat4_entries; ring.
Qed.

Lemma mat_mul_identity_r (m : glm.mat4) : glm.mat_mul m glm.identity = m.
Proof.
  destruct m as [[a0 a1 a2 a3] [b0 b1 b2 b3] [d0 d1 d2 d3] [f0 f1 f2 f3]].
  glm_unfold. mat4_entries; ring.
Qed.

Lemma inverse_identity : glm.inverse glm.identity = glm.identity.
Proof. glm_unfold. mat4_entries; field. Qed.

(** [glm::inverse] does invert: the cofactor formula gives a left inverse of
    every matrix whose determinant is not zero. *)
Lemma inverse_mul_l (m : glm.mat4) :
  determinant m <> 0 -> glm.mat_mul (glm.inverse m) m = glm.identity.
Proof.
  destruct m as [[a0 a1 a2 a3] [b0 b1 b2 b3] [d0 d1 d2 d3] [f0 f1 f2 f3]].
  unfold determinant. glm_unfold. intros Hdet.
  mat4_entries;
    (field; intros Hzero; apply Hdet; rewrite <- Hzero; ring).
Qed.

Lemma normalize_unit_x : glm.normalize (glm.mkvec3 1 0 0) = glm.mkvec3 1 0 0.
Proof.
  unfold glm.normalize, glm.inversesqrt, glm.dot; cbn [glm.x glm.y glm.z].
  replace (1 * 1 + 0 * 0 + 0 * 0) with 1 by ring.
  rewrite sqrt_1. f_equal; field.
Qed.

Lemma normalize_unit_y : glm.normalize (glm.mkvec3 0 1 0) = glm.mkvec3 0 1 0.
Proof.
  unfold glm.normalize, glm.inversesqrt, glm.dot; cbn [glm.x glm.y glm.z].
  replace (0 * 0 + 1 * 1 + 0 * 0) with 1 by ring.
  rewrite sqrt_1. f_equal; field.
Qed.

Lemma normalize_unit_z : glm.normalize (glm.mkvec3 0 0 1) = glm.mkvec3 0 0 1.
Proof.
  unfold glm.normalize, glm.inversesqrt, glm.dot; cbn [glm.x glm.y glm.z].
  replace (0 * 0 + 0 * 0 + 1 * 1) with 1 by ring.
  rewrite sqrt_1. f_equal; field.
Qed.

(** [glm::rotate] about a coordinate axis is the product with the
    elementary rotation of that axis. *)
Lemma rotate_about_y (m : glm.mat4) (angle : R) :
  glm.rotate m angle (glm.mkvec3 0 1 0) = glm.mat_mul m (Ry angle).
Proof.
  unfold glm.rotate. rewrite normalize_unit_y.
  destruct m as [[a0 a1 a2 a3] [b0 b1 b2 b3] [d0 d1 d2 d3] [f0 f1 f2 f3]].
  glm_unfold. mat4_entries; ring.
Qed.

Lemma rotate_about_x (m : glm.mat4) (angle : R) :
  glm.rotate m angle (glm.mkvec3 1 0 0) = glm.mat_mul m (Rx angle).
Proof.
  unfold glm.rotate. rewrite normalize_unit_x.
  destruct m as [[a0 a1 a2 a3] [b0 b1 b2 b3] [d0 d1 d2 d3] [f0 f1 f2 f3]].
  glm_unfold. mat4_entries; ring.
Qed.

Lemma rotate_about_z (m : glm.mat4) (angle : R) :
  glm.rotate m angle (glm.mkvec3 0 0 1) = glm.mat_mul m (Rz angle).
Proof.
  unfold glm.rotate. rewrite normalize_unit_z.
  destruct m as [[a0 a1 a2 a3] [b0 b1 b2 b3] [d0 d1 d2 d3] [f0 f1 f2 f3]].
  glm_unfold. mat4_entries; ring.
Qed.

End MatrixAlgebra.

(** ** Integer conversions *)

Lemma to_int32_nonzero (n : Z) :
  (0 < n < 2 ^ 32)%Z -> to_int32 n <> 0%Z.
Proof.
  intros Hn. unfold to_int32.
  destruct (Z_lt_le_dec n (2 ^ 31)) as [Hlt | Hge].
  - rewrite Z.mod_small by lia. lia.
  - replace (n + 2 ^ 31)%Z with ((n - 2 ^ 31) + 1 * 2 ^ 32)%Z by lia.
    rewrite Z.mod_add by lia. rewrite Z.mod_small by lia. lia.
Qed.

(** A name stored in an [int] field is recovered by the cast back. *)
Lemma to_uint32_to_int32 (n : Z) :
  (0 <= n < 2 ^ 32)%Z -> to_uint32 (to_int32 n) = n.
Proof.
  intros Hn. unfold to_uint32, to_int32.
  destruct (Z_lt_le_dec n (2 ^ 31)) as [Hlt | Hge].
  - rewrite (Z.mod_small (n + 2 ^ 31)) by lia.
    replace (n + 2 ^ 31 - 2 ^ 31)%Z with n by lia.
    apply Z.mod_small; lia.
  - replace (n + 2 ^ 31)%Z with ((n - 2 ^ 31) + 1 * 2 ^ 32)%Z by lia.
    rewrite Z.mod_add by lia. rewrite (Z.mod_small (n - 2 ^ 31)) by lia.
    replace (n - 2 ^ 31 - 2 ^ 31)%Z with (n + (-1) * 2 ^ 32)%Z by lia.
    rewrite Z.mod_add by lia. apply Z.mod_small; lia.
Qed.

(** ** The transform stacks *)

Lemma get_set_stack (mode : asr.MatrixMode) (st : asr.matrix_stack) (s : asr.State) :
  asr.get_stack mode (asr.set_stack mode st s) = st.
Proof. destruct mode; reflexivity. Qed.

Lemma current_matrix_stack_set_current (st : asr.matrix_stack) (s : asr.State) :
  asr.current_matrix_stack (asr.set_current_stack st s) = asr.current_matrix_stack s.
Proof.
  unfold asr.set_current_stack, asr.set_stack.
  destruct (asr.current_matrix_stack s) eqn:Hmode; cbn; exact Hmode.
Qed.

Lemma current_set_current_stack (st : asr.matrix_stack) (s : asr.State) :
  asr.current_stack (asr.set_current_stack st s) = st.
Proof.
  unfold asr.current_stack.
  rewrite current_matrix_stack_set_current.
  apply get_set_stack.
Qed.

(** Writing a non-empty stack through the current-stack pointer keeps all
    three stacks non-empty. *)
Lemma set_current_stack_nonempty (st : asr.matrix_stack) (s : asr.State) :
  stacks_nonempty s -> st <> [] -> stacks_nonempty (asr.set_current_stack st s).
Proof.
  intros (Hm & Hv & Hp) Hst.
  unfold stacks_nonempty, asr.set_current_stack, asr.set_stack.
  destruct (asr.current_matrix_stack s); cbn; auto.
Qed.

Lemma current_stack_nonempty (s : asr.State) :
  stacks_nonempty s -> asr.current_stack s <> [].
Proof.
  intros (Hm & Hv & Hp). unfold asr.current_stack, asr.get_stack.
  destruct (asr.current_matrix_stack s); assumption.
Qed.

Lemma pop_until_empty_nil (st : asr.matrix_stack) : asr.pop_until_empty st = [].
Proof. induction st as [| m below IH]; [reflexivity | exact IH]. Qed.

(** The read-modify-write operations: pop then push on a non-empty stack. *)
Lemma load_matrix_ok (matrix : glm.mat4) (s : asr.State) m below :
  asr.current_stack s = m :: below ->
  asr.load_matrix matrix s = asr.Ok (asr.set_current_stack (matrix :: below) s).
Proof. intros H. unfold asr.load_matrix. rewrite H. reflexivity. Qed.

Lemma push_matrix_ok (s : asr.State) m below :
  asr.current_stack s = m :: below ->
  asr.push_matrix s = asr.Ok (asr.set_current_stack (m :: m :: below) s).
Proof. intros H. unfold asr.push_matrix. rewrite H. reflexivity. Qed.

Lemma pop_matrix_singleton (s : asr.State) m :
  asr.current_stack s = [m] ->
  asr.pop_matrix s =
  asr.Ok (asr.set_current_stack [glm.identity] (asr.set_current_stack [] s)).
Proof.
  intros H. unfold asr.pop_matrix. rewrite H. cbn [asr.pop asr.bind].
  rewrite current_set_current_stack. reflexivity.
Qed.

Lemma pop_matrix_deeper (s : asr.State) m m' below :
  asr.current_stack s = m :: m' :: below ->
  asr.pop_matrix s = asr.Ok (asr.set_current_stack (m' :: below) s).
Proof.
  intros H. unfold asr.pop_matrix. rewrite H. cbn [asr.pop asr.bind].
  rewrite current_set_current_stack. reflexivity.
Qed.

Lemma set_current_stack_twice (st st' : asr.matrix_stack) (s : asr.State) :
  asr.set_current_stack st (asr.set_current_stack st' s) = asr.set_current_stack st s.
Proof.
  unfold asr.set_current_stack, asr.set_stack.
  destruct (asr.current_matrix_stack s) eqn:Hmode; cbn; rewrite ?Hmode; reflexivity.
Qed.

(** Every transform-stack operation runs to completion on non-empty stacks
    and leaves them non-empty. *)
Lemma run_op_nonempty (op : asr.StackOp) (s : asr.State) :
  stacks_nonempty s ->
  exists s', asr.run_op op s = asr.Ok s' /\ stacks_nonempty s'.
Proof.
  intros Hs.
  pose proof (current_stack_nonempty s Hs) as Hcur.
  destruct (asr.current_stack s) as [| m below] eqn:Hstack; [congruence |].
  destruct op as [mode | | | matrix | v | v | v]; cbn [asr.run_op].
  - exists (asr.set_matrix_mode mode s). split; [reflexivity |].
    destruct Hs as (Hm & Hv & Hp). destruct mode; repeat split; assumption.
  - rewrite (push_matrix_ok s m below Hstack). eexists; split; [reflexivity |].
    apply set_current_stack_nonempty; [assumption | discriminate].
  - destruct below as [| m' below].
    + rewrite (pop_matrix_singleton s m Hstack). eexists; split; [reflexivity |].
      rewrite set_current_stack_twice.
      apply set_current_stack_nonempty; [assumption | discriminate].
    + rewrite (pop_matrix_deeper s m m' below Hstack).
      eexists; split; [reflexivity |].
      apply set_current_stack_nonempty; [assumption | discriminate].
  - rewrite (load_matrix_ok matrix s m below Hstack).
    eexists; split; [reflexivity |].
    apply set_current_stack_nonempty; [assumption | discriminate].
  - unfold asr.translate_matrix. rewrite Hstack. cbn [asr.top asr.pop asr.bind].
    eexists; split; [reflexivity |].
    apply set_current_stack_nonempty; [assumption | discriminate].
  - unfold asr.rotate_matrix. rewrite Hstack. cbn [asr.top asr.pop asr.bind].
    eexists; split; [reflexivity |].
    apply set_current_stack_nonempty; [assumption | discriminate].
  - unfold asr.scale_matrix. rewrite Hstack. cbn [asr.top asr.pop asr.bind].
    eexists; split; [reflexivity |].
    apply set_current_stack_nonempty; [assumption | discriminate].
Qed.

Lemma run_ops_nonempty (ops : list asr.StackOp) :
  forall s : asr.State,
    stacks_nonempty s ->
    exists s', asr.run_ops ops s = asr.Ok s' /\ stacks_nonempty s'.
Proof.
  induction ops as [| op later IH]; intros s Hs.
  - exists s. split; [reflexivity | assumption].
  - destruct (run_op_nonempty op s Hs) as (s1 & Hrun & Hs1).
    destruct (IH s1 Hs1) as (s2 & Hrest & Hs2).
    exists s2. split; [| assumption].
    cbn [asr.run_ops]. rewrite Hrun. exact Hrest.
Qed.

Lemma prepare_for_es2_rendering_nonempty (now : asr.time_point) (s : asr.State) :
  stacks_nonempty (asr.prepare_for_es2_rendering now s).
Proof. repeat split; discriminate. Qed.

(** ** Claims about the transform stack engine *)

(** C1. Stack never-empty invariant: whatever sequence of transform-stack
    operations (mode selection, push, pop, and the load, translate, rotate
    and scale operations as well) is run from a state whose three stacks are
    non-empty, every operation completes and the Model, View and Projection
    stacks are all non-empty afterwards; this holds in particular from the
    state [prepare_for_es2_rendering] establishes; and [pop_matrix] on a
    current stack with exactly one element leaves that stack equal to
    [[identity]]. *)
Theorem stack_never_empty :
  (forall (ops : list asr.StackOp) (s : asr.State),
      stacks_nonempty s ->
      exists s', asr.run_ops ops s = asr.Ok s' /\ stacks_nonempty s')
  /\
  (forall (now : asr.time_point) (s0 : asr.State) (ops : list asr.StackOp),
      exists s',
        asr.run_ops ops (asr.prepare_for_es2_rendering now s0) = asr.Ok s' /\
        stacks_nonempty s')
  /\
  (forall (s : asr.State) (m : glm.mat4),
      asr.current_stack s = [m] ->
      exists s',
        asr.pop_matrix s = asr.Ok s' /\ asr.current_stack s' = [glm.identity]).
Proof.
  split; [| split].
  - intros ops s Hs. apply run_ops_nonempty. exact Hs.
  - intros now s0 ops. apply run_ops_nonempty.
    apply prepare_for_es2_rendering_nonempty.
  - intros s m Hs. rewrite (pop_matrix_singleton s m Hs).
    eexists; split; [reflexivity |]. apply current_set_current_stack.
Qed.

Lemma stack_never_empty_witness :
  (exists s',
      asr.run_ops [asr.OpPop; asr.OpPush; asr.OpSetMatrixMode asr.View;
                   asr.OpPop; asr.OpPop]
                  session_state = asr.Ok s' /\
      stacks_nonempty s')
  /\
  (exists s',
      asr.pop_matrix session_state = asr.Ok s' /\
      asr.current_stack s' = [glm.identity]).
Proof.
  split.
  - apply (proj1 stack_never_empty). repeat split; discriminate.
  - apply (proj2 (proj2 stack_never_empty) session_state glm.identity).
    reflexivity.
Defined.

(** C9. Push duplicates the top: on a non-empty current stack [push_matrix]
    completes, the stack is one element larger, and its new top is the
    matrix that was on top before: the stack [m :: below] becomes
    [m :: m :: below], so [top()] reads the same value before and after. *)
Theorem push_duplicates_top (s : asr.State) :
  asr.current_stack s <> [] ->
  exists s' m below,
    asr.push_matrix s = asr.Ok s' /\
    asr.current_stack s = m :: below /\
    asr.current_stack s' = m :: m :: below /\
    length (asr.current_stack s') = S (length (asr.current_stack s)) /\
    asr.top (asr.current_stack s') = asr.top (asr.current_stack s) /\
    asr.top (asr.current_stack s') = asr.Ok m.
Proof.
  intros Hne.
  destruct (asr.current_stack s) as [| m below] eqn:Hstack; [congruence |].
  exists (asr.set_current_stack (m :: m :: below) s), m, below.
  rewrite current_set_current_stack.
  repeat split. apply (push_matrix_ok s m below Hstack).
Qed.

Lemma push_duplicates_top_witness :
  exists s' m below,
    asr.push_matrix translated_state = asr.Ok s' /\
    asr.current_stack translated_state = m :: below /\
    asr.current_stack s' = m :: m :: below /\
    length (asr.current_stack s') = S (length (asr.current_stack translated_state)) /\
    asr.top (asr.current_stack s') = asr.top (asr.current_stack translated_state) /\
    asr.top (asr.current_stack s') = asr.Ok m.
Proof. apply (push_duplicates_top translated_state). discriminate. Defined.

(** C4. Rotation composition order: when the current stack has top [T],
    [rotate_matrix (x, y, z)] completes and replaces the top by
    [T * Ry(y) * Rx(x) * Rz(z)]: the yaw about Y is multiplied on the right
    first, then the pitch about X, then the roll about Z; the matrices below
    the top are untouched. *)
Theorem rotate_composition_order
        (rotation : glm.vec3) (s : asr.State) (T : glm.mat4) (below : asr.matrix_stack) :
  asr.current_stack s = T :: below ->
  exists s',
    asr.rotate_matrix rotation s = asr.Ok s' /\
    asr.current_stack s' =
    glm.mat_mul
      (glm.mat_mul (glm.mat_mul T (Ry (glm.y rotation))) (Rx (glm.x rotation)))
      (Rz (glm.z rotation))
    :: below.
Proof.
  intros Hstack. unfold asr.rotate_matrix. rewrite Hstack.
  cbn [asr.top asr.pop asr.bind asr.push].
  eexists; split; [reflexivity |].
  rewrite current_set_current_stack.
  rewrite rotate_about_y, rotate_about_x, rotate_about_z. reflexivity.
Qed.

Lemma rotate_composition_order_witness :
  exists s',
    asr.rotate_matrix (glm.mkvec3 1 2 3) translated_state = asr.Ok s' /\
    asr.current_stack s' =
    glm.mat_mul
      (glm.mat_mul
         (glm.mat_mul (glm.translate glm.identity (glm.mkvec3 1 0 0)) (Ry 2))
         (Rx 1))
      (Rz 3)
    :: [].
Proof.
  apply (rotate_composition_order (glm.mkvec3 1 2 3) translated_state).
  reflexivity.
Defined.

(** C8. Orthographic symmetry: with A the window's width divided by its
    height, [load_orthographic_projection_matrix zoom near far] replaces the
    top of the current stack by the orthographic projection with bounds
    left = -(zoom * A), right = zoom * A, bottom = -zoom, top = zoom; when
    A is 1 and zoom is 2 these bounds are -2, 2, -2 and 2. *)
Theorem orthographic_symmetry
        (near_plane far_plane : R) (s : asr.State)
        (m : glm.mat4) (below : asr.matrix_stack) :
  asr.current_stack s = m :: below ->
  (forall zoom : R,
      exists s',
        asr.load_orthographic_projection_matrix zoom near_plane far_plane s
        = asr.Ok s' /\
        asr.current_stack s' =
        glm.ortho
          (- (zoom * (IZR (asr.window_width s) / IZR (asr.window_height s))))
          (zoom * (IZR (asr.window_width s) / IZR (asr.window_height s)))
          (- zoom) zoom near_plane far_plane
        :: below)
  /\
  ((IZR (asr.window_width s) / IZR (asr.window_height s))%R = 1%R ->
   exists s',
     asr.load_orthographic_projection_matrix 2 near_plane far_plane s
     = asr.Ok s' /\
     asr.current_stack s' = glm.ortho (-2) 2 (-2) 2 near_plane far_plane :: below).
Proof.
  intros Hstack. split.
  - intros zoom. unfold asr.load_orthographic_projection_matrix.
    rewrite (load_matrix_ok _ s m below Hstack).
    eexists; split; [reflexivity |]. apply current_set_current_stack.
  - intros Haspect. unfold asr.load_orthographic_projection_matrix.
    rewrite (load_matrix_ok _ s m below Hstack).
    eexists; split; [reflexivity |].
    rewrite current_set_current_stack, Haspect.
    replace (2 * 1)%R with 2%R by ring. reflexivity.
Qed.

Lemma orthographic_symmetry_witness :
  exists s',
    asr.load_orthographic_projection_matrix 2 (1 / 10) 100 session_state
    = asr.Ok s' /\
    asr.current_stack s' = glm.ortho (-2) 2 (-2) 2 (1 / 10) 100 :: [].
Proof.
  apply (proj2 (orthographic_symmetry (1 / 10) 100 session_state
                                      glm.identity [] eq_refl)).
  change (IZR 500 / IZR 500 = 1)%R. field.
Defined.

(** ** Claims about the frame render controller *)

(** C3, as amended.  [prepare_for_es2_rendering] resets the Model, View and
    Projection stacks to [[identity]] each and records the session start
    time; towards the device it sets the clear colour and the viewport and
    enables the program point size, and nothing else: depth testing and face
    culling are enabled afterwards exactly when they were enabled before. *)
Theorem begin_session_resets (now : asr.time_point) (s : asr.State) :
  asr.model_matrix_stack (asr.prepare_for_es2_rendering now s) = [glm.identity] /\
  asr.view_matrix_stack (asr.prepare_for_es2_rendering now s) = [glm.identity] /\
  asr.projection_matrix_stack (asr.prepare_for_es2_rendering now s) = [glm.identity] /\
  asr.rendering_start_time (asr.prepare_for_es2_rendering now s) = now /\
  asr.gl_calls (asr.prepare_for_es2_rendering now s) =
    glEnable GL_PROGRAM_POINT_SIZE
    :: glViewport 0 0 (asr.window_width s) (asr.window_height s)
    :: glClearColor 0 0 0 0
    :: asr.gl_calls s /\
  gl_is_enabled GL_DEPTH_TEST (asr.gl_calls (asr.prepare_for_es2_rendering now s)) =
    gl_is_enabled GL_DEPTH_TEST (asr.gl_calls s) /\
  gl_is_enabled GL_CULL_FACE (asr.gl_calls (asr.prepare_for_es2_rendering now s)) =
    gl_is_enabled GL_CULL_FACE (asr.gl_calls s).
Proof.
  unfold asr.prepare_for_es2_rendering, asr.gl, asr.push.
  cbn [asr.model_matrix_stack asr.view_matrix_stack asr.projection_matrix_stack
       asr.rendering_start_time asr.gl_calls asr.window_width asr.window_height
       asr.with_gl_calls asr.with_stacks asr.with_rendering_start_time].
  rewrite !pop_until_empty_nil.
  repeat split.
Qed.

(** C3, the claim as stated fails: after depth testing and face culling
    were switched on, a session start leaves both enabled. *)
Lemma begin_session_leaves_depth_and_culling_enabled :
  ~ (asr.model_matrix_stack (asr.prepare_for_es2_rendering 7%Z culling_state)
     = [glm.identity] /\
     asr.view_matrix_stack (asr.prepare_for_es2_rendering 7%Z culling_state)
     = [glm.identity] /\
     asr.projection_matrix_stack (asr.prepare_for_es2_rendering 7%Z culling_state)
     = [glm.identity] /\
     asr.rendering_start_time (asr.prepare_for_es2_rendering 7%Z culling_state)
     = 7%Z /\
     gl_is_enabled GL_DEPTH_TEST
       (asr.gl_calls (asr.prepare_for_es2_rendering 7%Z culling_state)) = false /\
     gl_is_enabled GL_CULL_FACE
       (asr.gl_calls (asr.prepare_for_es2_rendering 7%Z culling_state)) = false).
Proof.
  intros (_ & _ & _ & _ & Hdepth & _).
  cbn in Hdepth. discriminate Hdepth.
Qed.

(** C7. Frame condition of [prepare_to_render_es2_frame]: it issues one
    [glClear] whose mask holds the colour and the depth bit, so that both
    buffers are cleared, and it leaves the three transform stacks, the
    current-stack selection and the current geometry selection as they
    were. *)
Theorem begin_frame_frame_condition (s : asr.State) :
  asr.gl_calls (asr.prepare_to_render_es2_frame s) =
    glClear (Z.lor GL_COLOR_BUFFER_BIT GL_DEPTH_BUFFER_BIT) :: asr.gl_calls s /\
  gl_draws_since_clear GL_COLOR_BUFFER_BIT
    (asr.gl_calls (asr.prepare_to_render_es2_frame s)) = [] /\
  gl_draws_since_clear GL_DEPTH_BUFFER_BIT
    (asr.gl_calls (asr.prepare_to_render_es2_frame s)) = [] /\
  asr.model_matrix_stack (asr.prepare_to_render_es2_frame s)
  = asr.model_matrix_stack s /\
  asr.view_matrix_stack (asr.prepare_to_render_es2_frame s)
  = asr.view_matrix_stack s /\
  asr.projection_matrix_stack (asr.prepare_to_render_es2_frame s)
  = asr.projection_matrix_stack s /\
  asr.current_matrix_stack (asr.prepare_to_render_es2_frame s)
  = asr.current_matrix_stack s /\
  asr.current_gpu_geometry (asr.prepare_to_render_es2_frame s)
  = asr.current_gpu_geometry s.
Proof. repeat split. Qed.

(** The state in which the draw reaches the uniform uploads: the program is
    activated, and the elapsed time is sent when the shader has a time
    uniform. *)
Lemma render_with_mvp_uniform
      (ticks_per_millisecond : Z) (now : asr.time_point) (s : asr.State)
      (p : asr.ptr) (geometry : asr.GPUGeometry)
      (M V P : glm.mat4) (ms vs ps : asr.matrix_stack) :
  asr.current_gpu_geometry s = Some p ->
  asr.objects s p = Some geometry ->
  asr.mvp_matrix_uniform_location s <> (-1)%Z ->
  asr.model_matrix_stack s = M :: ms ->
  asr.view_matrix_stack s = V :: vs ->
  asr.projection_matrix_stack s = P :: ps ->
  exists earlier,
    asr.render_current_es2_gpu_geometry ticks_per_millisecond now s =
    asr.Ok (asr.with_gl_calls
              (glDrawElements
                 (asr.convert_geometry_type_to_es2_geometry_type (asr.type geometry))
                 (to_int32 (asr.vertex_count geometry)) GL_UNSIGNED_INT 0
               :: glUniformMatrix4fv
                    (asr.mvp_matrix_uniform_location s) 1 false
                    (glm.mat_mul (glm.mat_mul P (glm.inverse V)) M)
               :: earlier)
              s) /\
    (asr.time_uniform_location s = (-1)%Z ->
     earlier = glUseProgram (asr.shader_program s) :: asr.gl_calls s).
Proof.
  intros Hcur Hobj Hmvp HM HV HP.
  unfold asr.render_current_es2_gpu_geometry. rewrite Hcur.
  apply Z.eqb_neq in Hmvp.
  cbv zeta.
  destruct (asr.time_uniform_location (asr.gl (glUseProgram (asr.shader_program s)) s)
            =? -1)%Z eqn:Htime;
    cbn -[glm.inverse glm.mat_mul Z.quot IZR Rdiv to_int32] in Htime |- *;
    rewrite Hmvp, HM, HV, HP; cbn [asr.top asr.bind];
    unfold asr.deref; cbn [asr.objects asr.gl asr.with_gl_calls];
    rewrite Hobj; cbn [asr.bind].
  - eexists; split; [reflexivity |]. intros _. reflexivity.
  - eexists; split; [reflexivity |]. intros Habs.
    apply Z.eqb_neq in Htime. contradiction.
Qed.

(** C2. MVP composition: when the shader has an MVP uniform (its location is
    not the sentinel -1), a geometry is selected and the three stacks have
    tops [M] (Model), [V] (View) and [P] (Projection), the draw completes and
    the matrix it sends to that location, right before the indexed draw, is
    [P * inverse(V) * M]; when [V] and [P] are both the identity, the matrix
    sent is [M] itself. *)
Theorem mvp_composition
        (ticks_per_millisecond : Z) (now : asr.time_point) (s : asr.State)
        (p : asr.ptr) (geometry : asr.GPUGeometry)
        (M V P : glm.mat4) (ms vs ps : asr.matrix_stack) :
  asr.current_gpu_geometry s = Some p ->
  asr.objects s p = Some geometry ->
  asr.mvp_matrix_uniform_location s <> (-1)%Z ->
  asr.model_matrix_stack s = M :: ms ->
  asr.view_matrix_stack s = V :: vs ->
  asr.projection_matrix_stack s = P :: ps ->
  exists s' earlier,
    asr.render_current_es2_gpu_geometry ticks_per_millisecond now s = asr.Ok s' /\
    asr.gl_calls s' =
      glDrawElements
        (asr.convert_geometry_type_to_es2_geometry_type (asr.type geometry))
        (to_int32 (asr.vertex_count geometry)) GL_UNSIGNED_INT 0
      :: glUniformMatrix4fv
           (asr.mvp_matrix_uniform_location s) 1 false
           (glm.mat_mul (glm.mat_mul P (glm.inverse V)) M)
      :: earlier /\
    gl_uniform_matrix (asr.mvp_matrix_uniform_location s) (asr.gl_calls s') =
      Some (glm.mat_mul (glm.mat_mul P (glm.inverse V)) M) /\
    (V = glm.identity -> P = glm.identity ->
     gl_uniform_matrix (asr.mvp_matrix_uniform_location s) (asr.gl_calls s') =
       Some M).
Proof.
  intros Hcur Hobj Hmvp HM HV HP.
  destruct (render_with_mvp_uniform ticks_per_millisecond now s p geometry
                                    M V P ms vs ps Hcur Hobj Hmvp HM HV HP)
    as (earlier & Hrun & _).
  eexists; exists earlier. split; [exact Hrun |].
  cbn [asr.gl_calls asr.with_gl_calls gl_uniform_matrix].
  rewrite Z.eqb_refl.
  split; [reflexivity |]. split; [reflexivity |].
  intros HVid HPid. subst V P.
  rewrite inverse_identity, !mat_mul_identity_l. reflexivity.
Qed.

Lemma mvp_composition_witness :
  exists s' earlier,
    asr.render_current_es2_gpu_geometry 1000000%Z 5000000%Z drawing_state
    = asr.Ok s' /\
    asr.gl_calls s' =
      glDrawElements GL_TRIANGLES 3 GL_UNSIGNED_INT 0
      :: glUniformMatrix4fv
           0 1 false
           (glm.mat_mul (glm.mat_mul glm.identity (glm.inverse glm.identity))
                        (glm.translate glm.identity (glm.mkvec3 1 0 0)))
      :: earlier /\
    gl_uniform_matrix 0 (asr.gl_calls s') =
      Some (glm.mat_mul (glm.mat_mul glm.identity (glm.inverse glm.identity))
                        (glm.translate glm.identity (glm.mkvec3 1 0 0))) /\
    (glm.identity = glm.identity -> glm.identity = glm.identity ->
     gl_uniform_matrix 0 (asr.gl_calls s') =
       Some (glm.translate glm.identity (glm.mkvec3 1 0 0))).
Proof.
  apply (mvp_composition 1000000%Z 5000000%Z drawing_state 0%nat triangle
                         (glm.translate glm.identity (glm.mkvec3 1 0 0))
                         glm.identity glm.identity [] [] []).
  - reflexivity.
  - reflexivity.
  - discriminate.
  - reflexivity.
  - reflexivity.
  - reflexivity.
Defined.

(** C6. Precondition fault of the draw: with no geometry selected
    ([current_gpu_geometry] is null) the draw stops at its assertion, it is
    neither a successful no-op nor any other outcome; with a geometry
    selected the assertion does not fire. *)
Theorem draw_without_geometry_asserts
        (ticks_per_millisecond : Z) (now : asr.time_point) (s : asr.State) :
  (asr.current_gpu_geometry s = None ->
   asr.render_current_es2_gpu_geometry ticks_per_millisecond now s
   = asr.AssertionFailure)
  /\
  (asr.current_gpu_geometry s <> None ->
   asr.render_current_es2_gpu_geometry ticks_per_millisecond now s
   <> asr.AssertionFailure).
Proof.
  split.
  - intros Hnone. unfold asr.render_current_es2_gpu_geometry.
    rewrite Hnone. reflexivity.
  - intros Hsome. unfold asr.render_current_es2_gpu_geometry.
    destruct (asr.current_gpu_geometry s) as [p |]; [| congruence].
    cbv zeta.
    match goal with
    | |- asr.bind ?upload _ <> _ => destruct upload as [s1 | |] eqn:Hupload
    end.
    + cbn [asr.bind]. unfold asr.deref.
      destruct (asr.objects s1 p); cbn [asr.bind]; discriminate.
    + exfalso. revert Hupload.
      match goal with
      | |- (if ?c then _ else _) = _ -> _ => destruct c
      end; [discriminate |].
      match goal with
      | |- asr.bind (asr.top ?st) _ = _ -> _ => destruct st
      end; [discriminate |]. cbn [asr.top asr.bind].
      match goal with
      | |- asr.bind (asr.top ?st) _ = _ -> _ => destruct st
      end; [discriminate |]. cbn [asr.top asr.bind].
      match goal with
      | |- asr.bind (asr.top ?st) _ = _ -> _ => destruct st
      end; discriminate.
    + cbn [asr.bind]. discriminate.
Qed.

Lemma draw_without_geometry_asserts_witness :
  asr.render_current_es2_gpu_geometry 1000000%Z 5000000%Z session_state
  = asr.AssertionFailure
  /\
  asr.render_current_es2_gpu_geometry 1000000%Z 5000000%Z drawing_state
  <> asr.AssertionFailure.
Proof.
  split.
  - apply (proj1 (draw_without_geometry_asserts 1000000%Z 5000000%Z session_state)).
    reflexivity.
  - apply (proj2 (draw_without_geometry_asserts 1000000%Z 5000000%Z drawing_state)).
    discriminate.
Defined.

(** C10. Destroying the shader program resets the program handle to 0 and the
    position, colour and time locations to -1, and leaves the MVP location
    as it was; so when that location was valid, a later draw still goes
    through the MVP branch: with program 0 active and no time upload, it
    sends [P * inverse(V) * M] to the stale location and then draws. *)
Theorem destroy_shader_keeps_mvp_location :
  (forall s : asr.State,
      asr.shader_program (asr.destroy_es2_shader_program s) = 0%Z /\
      asr.position_attribute_location (asr.destroy_es2_shader_program s) = (-1)%Z /\
      asr.color_attribute_location (asr.destroy_es2_shader_program s) = (-1)%Z /\
      asr.time_uniform_location (asr.destroy_es2_shader_program s) = (-1)%Z /\
      asr.mvp_matrix_uniform_location (asr.destroy_es2_shader_program s)
      = asr.mvp_matrix_uniform_location s)
  /\
  (forall (ticks_per_millisecond : Z) (now : asr.time_point) (s : asr.State)
          (p : asr.ptr) (geometry : asr.GPUGeometry)
          (M V P : glm.mat4) (ms vs ps : asr.matrix_stack),
      asr.mvp_matrix_uniform_location s <> (-1)%Z ->
      asr.current_gpu_geometry s = Some p ->
      asr.objects s p = Some geometry ->
      asr.model_matrix_stack s = M :: ms ->
      asr.view_matrix_stack s = V :: vs ->
      asr.projection_matrix_stack s = P :: ps ->
      exists s',
        asr.render_current_es2_gpu_geometry
          ticks_per_millisecond now (asr.destroy_es2_shader_program s)
        = asr.Ok s' /\
        asr.gl_calls s' =
          glDrawElements
            (asr.convert_geometry_type_to_es2_geometry_type (asr.type geometry))
            (to_int32 (asr.vertex_count geometry)) GL_UNSIGNED_INT 0
          :: glUniformMatrix4fv
               (asr.mvp_matrix_uniform_location s) 1 false
               (glm.mat_mul (glm.mat_mul P (glm.inverse V)) M)
          :: glUseProgram 0
          :: glDeleteProgram (asr.shader_program s)
          :: glUseProgram 0
          :: asr.gl_calls s).
Proof.
  split.
  - intros s. repeat split.
  - intros tpm now s p geometry M V P ms vs ps Hmvp Hcur Hobj HM HV HP.
    destruct (render_with_mvp_uniform tpm now (asr.destroy_es2_shader_program s)
                                      p geometry M V P ms vs ps)
      as (earlier & Hrun & Hearlier); try assumption.
    eexists. split; [exact Hrun |].
    rewrite (Hearlier eq_refl). reflexivity.
Qed.

Lemma destroy_shader_keeps_mvp_location_witness :
  exists s',
    asr.render_current_es2_gpu_geometry
      1000000%Z 5000000%Z (asr.destroy_es2_shader_program drawing_state)
    = asr.Ok s' /\
    asr.gl_calls s' =
      glDrawElements GL_TRIANGLES 3 GL_UNSIGNED_INT 0
      :: glUniformMatrix4fv
           0 1 false
           (glm.mat_mul (glm.mat_mul glm.identity (glm.inverse glm.identity))
                        (glm.translate glm.identity (glm.mkvec3 1 0 0)))
      :: glUseProgram 0
      :: glDeleteProgram 1
      :: glUseProgram 0
      :: [].
Proof.
  apply (proj2 destroy_shader_keeps_mvp_location
               1000000%Z 5000000%Z drawing_state 0%nat triangle
               (glm.translate glm.identity (glm.mkvec3 1 0 0))
               glm.identity glm.identity [] [] []).
  - discriminate.
  - reflexivity.
  - reflexivity.
  - reflexivity.
  - reflexivity.
  - reflexivity.
Defined.

(** ** Claims about the geometry resource manager *)

Lemma counting_driver_valid (calls : list GLCall) :
  (0 < counting_driver calls < 2 ^ 32)%Z.
Proof.
  unfold counting_driver.
  pose proof (Z.mod_pos_bound (Z.of_nat (length calls)) (2 ^ 32 - 1)) as Hbound.
  lia.
Qed.

Lemma objects_store_same (p : asr.ptr) (geometry : asr.GPUGeometry) (s : asr.State) :
  asr.objects (asr.store p geometry s) p = Some geometry.
Proof. unfold asr.store. cbn. rewrite Nat.eqb_refl. reflexivity. Qed.

(** ** Further properties of the transform stack engine *)

Lemma set_current_stack_same (s : asr.State) (st : asr.matrix_stack) :
  asr.current_stack s = st -> asr.set_current_stack st s = s.
Proof.
  destruct s as [ww wh sp pl cl tl ml cg ms vs ps mode t calls mem].
  unfold asr.current_stack, asr.set_current_stack.
  destruct mode; cbn; intros <-; reflexivity.
Qed.

Lemma get_stack_set_current_other
      (mode : asr.MatrixMode) (st : asr.matrix_stack) (s : asr.State) :
  mode <> asr.current_matrix_stack s ->
  asr.get_stack mode (asr.set_current_stack st s) = asr.get_stack mode s.
Proof.
  unfold asr.set_current_stack.
  destruct mode, (asr.current_matrix_stack s); intros Hne;
    try reflexivity; congruence.
Qed.

(** The shape of every successful operation of the engine: a mode switch, or
    a new current stack written over the old one. *)
Lemma run_op_shape (op : asr.StackOp) (s s' : asr.State) :
  asr.run_op op s = asr.Ok s' ->
  (exists mode, s' = asr.set_matrix_mode mode s) \/
  (exists st, s' = asr.set_current_stack st s).
Proof.
  destruct op as [mode | | | matrix | v | v | v]; cbn [asr.run_op];
    unfold asr.push_matrix, asr.pop_matrix, asr.load_matrix,
           asr.translate_matrix, asr.rotate_matrix, asr.scale_matrix.
  - intros H. injection H as <-. left. eexists. reflexivity.
  - destruct (asr.current_stack s) as [| m below]; cbn; [discriminate |].
    intros H. injection H as <-. right. eexists. reflexivity.
  - destruct (asr.current_stack s) as [| m below]; cbn [asr.pop asr.bind];
      [discriminate |].
    rewrite current_set_current_stack.
    destruct below as [| m' below]; cbn [asr.empty]; intros H; injection H as <-;
      right; eexists; [apply set_current_stack_twice | reflexivity].
  - destruct (asr.current_stack s) as [| m below]; cbn; [discriminate |].
    intros H. injection H as <-. right. eexists. reflexivity.
  - destruct (asr.current_stack s) as [| m below]; cbn [asr.top asr.pop asr.bind];
      [discriminate |].
    intros H. injection H as <-. right. eexists. reflexivity.
  - destruct (asr.current_stack s) as [| m below]; cbn [asr.top asr.pop asr.bind];
      [discriminate |].
    intros H. injection H as <-. right. eexists. reflexivity.
  - destruct (asr.current_stack s) as [| m below]; cbn [asr.top asr.pop asr.bind];
      [discriminate |].
    intros H. injection H as <-. right. eexists. reflexivity.
Qed.

(** X1. Only the current stack is ever written: a successful operation of
    the engine leaves the two stacks that are not selected as they were,
    issues no OpenGL call and keeps the geometry selection. *)
Theorem stack_op_touches_only_current_stack
        (op : asr.StackOp) (s s' : asr.State) :
  asr.run_op op s = asr.Ok s' ->
  (forall mode : asr.MatrixMode,
      mode <> asr.current_matrix_stack s ->
      asr.get_stack mode s' = asr.get_stack mode s) /\
  asr.gl_calls s' = asr.gl_calls s /\
  asr.current_gpu_geometry s' = asr.current_gpu_geometry s.
Proof.
  intros Hrun.
  destruct (run_op_shape op s s' Hrun) as [(mode' & ->) | (st & ->)].
  - split; [| split].
    + intros mode _. destruct mode, mode'; reflexivity.
    + destruct mode'; reflexivity.
    + destruct mode'; reflexivity.
  - split; [| split].
    + intros mode Hne. apply get_stack_set_current_other. exact Hne.
    + unfold asr.set_current_stack. destruct (asr.current_matrix_stack s); reflexivity.
    + unfold asr.set_current_stack. destruct (asr.current_matrix_stack s); reflexivity.
Qed.

Lemma stack_op_touches_only_current_stack_witness :
  (forall mode : asr.MatrixMode,
      mode <> asr.current_matrix_stack translated_state ->
      asr.get_stack mode
        (asr.set_current_stack
           [glm.translate glm.identity (glm.mkvec3 1 0 0);
            glm.translate glm.identity (glm.mkvec3 1 0 0)]
           translated_state)
      = asr.get_stack mode translated_state) /\
  asr.gl_calls
    (asr.set_current_stack
       [glm.translate glm.identity (glm.mkvec3 1 0 0);
        glm.translate glm.identity (glm.mkvec3 1 0 0)]
       translated_state)
  = asr.gl_calls translated_state /\
  asr.current_gpu_geometry
    (asr.set_current_stack
       [glm.translate glm.identity (glm.mkvec3 1 0 0);
        glm.translate glm.identity (glm.mkvec3 1 0 0)]
       translated_state)
  = asr.current_gpu_geometry translated_state.
Proof.
  apply (stack_op_touches_only_current_stack asr.OpPush translated_state).
  reflexivity.
Defined.

(** X2. Push then pop is the identity: on a non-empty current stack,
    [push_matrix] followed by [pop_matrix] completes and gives back the very
    state it started from. *)
Theorem push_then_pop_restores (s : asr.State) :
  asr.current_stack s <> [] ->
  asr.bind (asr.push_matrix s) asr.pop_matrix = asr.Ok s.
Proof.
  intros Hne.
  destruct (asr.current_stack s) as [| m below] eqn:Hstack; [congruence |].
  rewrite (push_matrix_ok s m below Hstack). cbn [asr.bind].
  rewrite (pop_matrix_deeper _ m m below (current_set_current_stack _ s)).
  rewrite set_current_stack_twice.
  rewrite (set_current_stack_same s (m :: below) Hstack). reflexivity.
Qed.

Lemma push_then_pop_restores_witness :
  asr.bind (asr.push_matrix translated_state) asr.pop_matrix
  = asr.Ok translated_state.
Proof. apply (push_then_pop_restores translated_state). discriminate. Defined.

(** In-place edits keep everything below the top. *)
Lemma run_edits_keep_below (edits : list asr.StackOp) :
  forallb edits_top_only edits = true ->
  forall (s : asr.State) (m : glm.mat4) (below : asr.matrix_stack),
    asr.current_stack s = m :: below ->
    exists m',
      asr.run_ops edits s = asr.Ok (asr.set_current_stack (m' :: below) s).
Proof.
  induction edits as [| op later IH]; intros Hedits s m below Hstack.
  - exists m. cbn. rewrite (set_current_stack_same s _ Hstack). reflexivity.
  - cbn [forallb] in Hedits. apply andb_prop in Hedits as [Hop Hlater].
    assert (exists m1, asr.run_op op s
                       = asr.Ok (asr.set_current_stack (m1 :: below) s))
      as (m1 & Hrun).
    { destruct op as [mode | | | matrix | v | v | v]; try discriminate Hop;
        cbn [asr.run_op];
        unfold asr.load_matrix, asr.translate_matrix, asr.rotate_matrix,
               asr.scale_matrix;
        rewrite Hstack; cbn [asr.top asr.pop asr.bind asr.push];
        eexists; reflexivity. }
    destruct (IH Hlater _ m1 below (current_set_current_stack _ s)) as (m' & Hrest).
    exists m'. cbn [asr.run_ops]. rewrite Hrun. cbn [asr.bind].
    rewrite Hrest, set_current_stack_twice. reflexivity.
Qed.

(** X3. Save and restore: on a non-empty current stack, [push_matrix], then
    any sequence of loads, translations, rotations and scalings, then
    [pop_matrix] completes and gives back the state before the push. *)
Theorem push_edit_pop_restores (edits : list asr.StackOp) (s : asr.State) :
  forallb edits_top_only edits = true ->
  asr.current_stack s <> [] ->
  asr.bind (asr.push_matrix s)
           (fun pushed => asr.bind (asr.run_ops edits pushed) asr.pop_matrix)
  = asr.Ok s.
Proof.
  intros Hedits Hne.
  destruct (asr.current_stack s) as [| m below] eqn:Hstack; [congruence |].
  rewrite (push_matrix_ok s m below Hstack). cbn [asr.bind].
  destruct (run_edits_keep_below edits Hedits _ m (m :: below)
                                 (current_set_current_stack _ s))
    as (m' & Hrun).
  rewrite Hrun. cbn [asr.bind].
  rewrite (pop_matrix_deeper _ m' m below (current_set_current_stack _ _)).
  rewrite !set_current_stack_twice.
  rewrite (set_current_stack_same s (m :: below) Hstack). reflexivity.
Qed.

Lemma push_edit_pop_restores_witness :
  asr.bind (asr.push_matrix translated_state)
           (fun pushed =>
              asr.bind
                (asr.run_ops [asr.OpRotate (glm.mkvec3 1 2 3);
                              asr.OpLoad glm.identity;
                              asr.OpScale (glm.mkvec3 2 2 2)]
                             pushed)
                asr.pop_matrix)
  = asr.Ok translated_state.
Proof.
  apply (push_edit_pop_restores
           [asr.OpRotate (glm.mkvec3 1 2 3); asr.OpLoad glm.identity;
            asr.OpScale (glm.mkvec3 2 2 2)]
           translated_state).
  - reflexivity.
  - discriminate.
Defined.

Section MatrixComposition.

Local Open Scope R_scope.

Lemma mat_mul_assoc (a b c : glm.mat4) :
  glm.mat_mul (glm.mat_mul a b) c = glm.mat_mul a (glm.mat_mul b c).
Proof.
  destruct a as [[a00 a01 a02 a03] [a10 a11 a12 a13]
                 [a20 a21 a22 a23] [a30 a31 a32 a33]].
  destruct b as [[b00 b01 b02 b03] [b10 b11 b12 b13]
                 [b20 b21 b22 b23] [b30 b31 b32 b33]].
  destruct c as [[c00 c01 c02 c03] [c10 c11 c12 c13]
                 [c20 c21 c22 c23] [c30 c31 c32 c33]].
  glm_unfold. mat4_entries; ring.
Qed.

Lemma translate_translate (m : glm.mat4) (u v : glm.vec3) :
  glm.translate (glm.translate m u) v = glm.translate m (add3 u v).
Proof.
  destruct m as [[a0 a1 a2 a3] [b0 b1 b2 b3] [d0 d1 d2 d3] [f0 f1 f2 f3]].
  destruct u as [ux uy uz], v as [vx vy vz].
  unfold add3. glm_unfold. mat4_entries; ring.
Qed.

Lemma scale_scale (m : glm.mat4) (u v : glm.vec3) :
  glm.scale (glm.scale m u) v = glm.scale m (mul3 u v).
Proof.
  destruct m as [[a0 a1 a2 a3] [b0 b1 b2 b3] [d0 d1 d2 d3] [f0 f1 f2 f3]].
  destruct u as [ux uy uz], v as [vx vy vz].
  unfold mul3. glm_unfold. mat4_entries; ring.
Qed.

Lemma translate_zero (m : glm.mat4) : glm.translate m (glm.mkvec3 0 0 0) = m.
Proof.
  destruct m as [[a0 a1 a2 a3] [b0 b1 b2 b3] [d0 d1 d2 d3] [f0 f1 f2 f3]].
  glm_unfold. mat4_entries; ring.
Qed.

Lemma scale_one (m : glm.mat4) : glm.scale m (glm.mkvec3 1 1 1) = m.
Proof.
  destruct m as [[a0 a1 a2 a3] [b0 b1 b2 b3] [d0 d1 d2 d3] [f0 f1 f2 f3]].
  glm_unfold. mat4_entries; ring.
Qed.

Lemma Rx_zero : Rx 0 = glm.identity.
Proof. unfold Rx. rewrite cos_0, sin_0, Ropp_0. reflexivity. Qed.

Lemma Ry_zero : Ry 0 = glm.identity.
Proof. unfold Ry. rewrite cos_0, sin_0, Ropp_0. reflexivity. Qed.

Lemma Rz_zero : Rz 0 = glm.identity.
Proof. unfold Rz. rewrite cos_0, sin_0, Ropp_0. reflexivity. Qed.

Lemma Rx_plus (m : glm.mat4) (a b : R) :
  glm.mat_mul (glm.mat_mul m (Rx a)) (Rx b) = glm.mat_mul m (Rx (a + b)).
Proof.
  rewrite mat_mul_assoc. f_equal.
  glm_unfold. rewrite cos_plus, sin_plus. mat4_entries; ring.
Qed.

Lemma Ry_plus (m : glm.mat4) (a b : R) :
  glm.mat_mul (glm.mat_mul m (Ry a)) (Ry b) = glm.mat_mul m (Ry (a + b)).
Proof.
  rewrite mat_mul_assoc. f_equal.
  glm_unfold. rewrite cos_plus, sin_plus. mat4_entries; ring.
Qed.

Lemma Rz_plus (m : glm.mat4) (a b : R) :
  glm.mat_mul (glm.mat_mul m (Rz a)) (Rz b) = glm.mat_mul m (Rz (a + b)).
Proof.
  rewrite mat_mul_assoc. f_equal.
  glm_unfold. rewrite cos_plus, sin_plus. mat4_entries; ring.
Qed.

(** What [rotate_matrix] writes on top, as a product. *)
Lemma rotate_matrix_product (rotation : glm.vec3) (s : asr.State) :
  asr.rotate_matrix rotation s =
  match asr.current_stack s with
  | [] => asr.Undefined
  | T :: below =>
      asr.Ok (asr.set_current_stack
                (glm.mat_mul
                   (glm.mat_mul (glm.mat_mul T (Ry (glm.y rotation)))
                                (Rx (glm.x rotation)))
                   (Rz (glm.z rotation))
                 :: below) s)
  end.
Proof.
  unfold asr.rotate_matrix.
  destruct (asr.current_stack s) as [| T below]; [reflexivity |].
  cbn [asr.top asr.pop asr.bind asr.push].
  rewrite rotate_about_y, rotate_about_x, rotate_about_z. reflexivity.
Qed.

End MatrixComposition.

(** X4. Translations add up: [translate_matrix u] followed by
    [translate_matrix v] has the outcome of one [translate_matrix (u + v)];
    on an empty current stack both are undefined. *)
Theorem translations_add (u v : glm.vec3) (s : asr.State) :
  asr.bind (asr.translate_matrix u s) (asr.translate_matrix v)
  = asr.translate_matrix (add3 u v) s.
Proof.
  unfold asr.translate_matrix at 1 3.
  destruct (asr.current_stack s) as [| m below] eqn:Hstack; [reflexivity |].
  cbn [asr.top asr.pop asr.bind asr.push].
  unfold asr.translate_matrix. rewrite current_set_current_stack.
  cbn [asr.top asr.pop asr.bind asr.push].
  rewrite set_current_stack_twice, translate_translate. reflexivity.
Qed.

(** X5. Scalings multiply: [scale_matrix u] followed by [scale_matrix v] has
    the outcome of one [scale_matrix] by the component-wise product of [u]
    and [v]; on an empty current stack both are undefined. *)
Theorem scalings_multiply (u v : glm.vec3) (s : asr.State) :
  asr.bind (asr.scale_matrix u s) (asr.scale_matrix v)
  = asr.scale_matrix (mul3 u v) s.
Proof.
  unfold asr.scale_matrix at 1 3.
  destruct (asr.current_stack s) as [| m below] eqn:Hstack; [reflexivity |].
  cbn [asr.top asr.pop asr.bind asr.push].
  unfold asr.scale_matrix. rewrite current_set_current_stack.
  cbn [asr.top asr.pop asr.bind asr.push].
  rewrite set_current_stack_twice, scale_scale. reflexivity.
Qed.

(** X6. Rotations about one axis add up: two [rotate_matrix] calls that
    turn about the same single axis (yaw only, pitch only or roll only) have
    the outcome of one call with the sum of the two angles. *)
Theorem single_axis_rotations_add (a b : R) (s : asr.State) :
  asr.bind (asr.rotate_matrix (glm.mkvec3 0 a 0) s)
           (asr.rotate_matrix (glm.mkvec3 0 b 0))
  = asr.rotate_matrix (glm.mkvec3 0 (a + b) 0) s
  /\
  asr.bind (asr.rotate_matrix (glm.mkvec3 a 0 0) s)
           (asr.rotate_matrix (glm.mkvec3 b 0 0))
  = asr.rotate_matrix (glm.mkvec3 (a + b) 0 0) s
  /\
  asr.bind (asr.rotate_matrix (glm.mkvec3 0 0 a) s)
           (asr.rotate_matrix (glm.mkvec3 0 0 b))
  = asr.rotate_matrix (glm.mkvec3 0 0 (a + b)) s.
Proof.
  rewrite !(rotate_matrix_product _ s).
  destruct (asr.current_stack s) as [| T below] eqn:Hstack;
    [repeat split |].
  cbn [asr.bind glm.x glm.y glm.z].
  rewrite !rotate_matrix_product, !current_set_current_stack.
  cbn [glm.x glm.y glm.z].
  rewrite !set_current_stack_twice.
  rewrite Rx_zero, Ry_zero, Rz_zero, !mat_mul_identity_r.
  rewrite Rx_plus, Ry_plus, Rz_plus.
  repeat split.
Qed.

(** X7. Neutral transforms: on a non-empty current stack, translating by
    (0, 0, 0), rotating by (0, 0, 0) and scaling by (1, 1, 1) each complete
    and leave the state as it was. *)
Theorem neutral_transforms_keep_state (s : asr.State) :
  asr.current_stack s <> [] ->
  asr.translate_matrix (glm.mkvec3 0 0 0) s = asr.Ok s /\
  asr.rotate_matrix (glm.mkvec3 0 0 0) s = asr.Ok s /\
  asr.scale_matrix (glm.mkvec3 1 1 1) s = asr.Ok s.
Proof.
  intros Hne. rewrite rotate_matrix_product.
  unfold asr.translate_matrix, asr.scale_matrix.
  destruct (asr.current_stack s) as [| m below] eqn:Hstack; [congruence |].
  cbn [asr.top asr.pop asr.bind glm.x glm.y glm.z]. unfold asr.push.
  rewrite translate_zero, scale_one.
  rewrite Rx_zero, Ry_zero, Rz_zero, !mat_mul_identity_r.
  rewrite (set_current_stack_same s (m :: below) Hstack).
  repeat split.
Qed.

Lemma neutral_transforms_keep_state_witness :
  asr.translate_matrix (glm.mkvec3 0 0 0) translated_state
  = asr.Ok translated_state /\
  asr.rotate_matrix (glm.mkvec3 0 0 0) translated_state
  = asr.Ok translated_state /\
  asr.scale_matrix (glm.mkvec3 1 1 1) translated_state
  = asr.Ok translated_state.
Proof. apply (neutral_transforms_keep_state translated_state). discriminate. Defined.

(** ** Further properties of the view and projection matrices *)

Section ViewAndProjection.

Local Open Scope R_scope.

Lemma inverse_translation (e : glm.vec3) :
  glm.inverse (glm.translate glm.identity e) =
  glm.translate glm.identity (glm.mkvec3 (- glm.x e) (- glm.y e) (- glm.z e)).
Proof.
  destruct e as [ex ey ez]. glm_unfold. mat4_entries; field.
Qed.

Lemma normalize_towards_minus_z (d : R) :
  0 < d -> glm.normalize (glm.mkvec3 0 0 (- d)) = glm.mkvec3 0 0 (-1).
Proof.
  intros Hd. unfold glm.normalize, glm.inversesqrt, glm.dot; cbn [glm.x glm.y glm.z].
  replace (0 * 0 + 0 * 0 + - d * - d) with (d * d) by ring.
  rewrite sqrt_square by lra. f_equal; field; lra.
Qed.

(** [glm::lookAt] from [eye] straight down the negative Z axis, with the up
    vector (0, 1, 0), is the translation that brings [eye] to the origin. *)
Lemma lookAt_down_minus_z (eye : glm.vec3) (d : R) :
  0 < d ->
  glm.lookAt eye (glm.mkvec3 (glm.x eye) (glm.y eye) (glm.z eye - d))
             (glm.mkvec3 0 1 0)
  = glm.translate glm.identity
                  (glm.mkvec3 (- glm.x eye) (- glm.y eye) (- glm.z eye)).
Proof.
  intros Hd. destruct eye as [ex ey ez]. cbn [glm.x glm.y glm.z].
  assert (glm.sub3 (glm.mkvec3 ex ey (ez - d)) (glm.mkvec3 ex ey ez)
          = glm.mkvec3 0 0 (- d)) as Hforward
      by (unfold glm.sub3; cbn [glm.x glm.y glm.z]; f_equal; ring).
  assert (glm.cross (glm.mkvec3 0 0 (-1)) (glm.mkvec3 0 1 0) = glm.mkvec3 1 0 0)
    as Hside
      by (unfold glm.cross; cbn [glm.x glm.y glm.z]; f_equal; ring).
  unfold glm.lookAt. cbv zeta.
  rewrite Hforward, (normalize_towards_minus_z d Hd), Hside, normalize_unit_x.
  unfold glm.cross. glm_unfold. mat4_entries; ring.
Qed.

End ViewAndProjection.

(** X8. Looking straight ahead: [load_look_at_matrix] with the target a
    positive distance in front of [position] along the negative Z axis
    replaces the top of the current stack by the translation that moves
    [position] to the origin, whatever the distance. *)
Theorem look_at_straight_ahead
        (position : glm.vec3) (d : R) (s : asr.State)
        (m : glm.mat4) (below : asr.matrix_stack) :
  (0 < d)%R ->
  asr.current_stack s = m :: below ->
  exists s',
    asr.load_look_at_matrix
      position
      (glm.mkvec3 (glm.x position) (glm.y position) (glm.z position - d)) s
    = asr.Ok s' /\
    asr.current_stack s' =
    glm.translate glm.identity
                  (glm.mkvec3 (- glm.x position) (- glm.y position)
                              (- glm.z position))
    :: below.
Proof.
  intros Hd Hstack. unfold asr.load_look_at_matrix.
  rewrite (lookAt_down_minus_z position d Hd).
  rewrite (load_matrix_ok _ s m below Hstack).
  eexists; split; [reflexivity |]. apply current_set_current_stack.
Qed.

Lemma look_at_straight_ahead_witness :
  exists s',
    asr.load_look_at_matrix
      (glm.mkvec3 1 2 3) (glm.mkvec3 1 2 (3 - 5)) translated_state
    = asr.Ok s' /\
    asr.current_stack s' =
    glm.translate glm.identity (glm.mkvec3 (- 1) (- 2) (- 3)) :: [].
Proof.
  apply (look_at_straight_ahead
           (glm.mkvec3 1 2 3) 5 translated_state
           (glm.translate glm.identity (glm.mkvec3 1 0 0)) []).
  - lra.
  - reflexivity.
Defined.

(** X9. The View stack holds the camera pose: when the top of the View stack
    is the translation of the camera to [e], the matrix the draw sends to the
    MVP location is [P * translate(-e) * M]. *)
Theorem draw_inverts_camera_translation
        (ticks_per_millisecond : Z) (now : asr.time_point) (s : asr.State)
        (p : asr.ptr) (geometry : asr.GPUGeometry)
        (M P : glm.mat4) (e : glm.vec3) (ms vs ps : asr.matrix_stack) :
  asr.current_gpu_geometry s = Some p ->
  asr.objects s p = Some geometry ->
  asr.mvp_matrix_uniform_location s <> (-1)%Z ->
  asr.model_matrix_stack s = M :: ms ->
  asr.view_matrix_stack s = glm.translate glm.identity e :: vs ->
  asr.projection_matrix_stack s = P :: ps ->
  exists s',
    asr.render_current_es2_gpu_geometry ticks_per_millisecond now s = asr.Ok s' /\
    gl_uniform_matrix (asr.mvp_matrix_uniform_location s) (asr.gl_calls s') =
    Some (glm.mat_mul
            (glm.mat_mul P
               (glm.translate glm.identity
                  (glm.mkvec3 (- glm.x e) (- glm.y e) (- glm.z e))))
            M).
Proof.
  intros Hcur Hobj Hmvp HM HV HP.
  destruct (render_with_mvp_uniform ticks_per_millisecond now s p geometry
                                    M _ P ms vs ps Hcur Hobj Hmvp HM HV HP)
    as (earlier & Hrun & _).
  eexists. split; [exact Hrun |].
  cbn [asr.gl_calls asr.with_gl_calls gl_uniform_matrix].
  rewrite Z.eqb_refl, inverse_translation. reflexivity.
Qed.

(** X10. An object placed at the camera pose: when the Model and View stacks
    have the same top [V], of non-zero determinant, the matrix the draw sends
    to the MVP location [X] satisfies [X = P * (inverse(V) * V) = P]. *)
Theorem draw_at_camera_pose_sends_projection
        (ticks_per_millisecond : Z) (now : asr.time_point) (s : asr.State)
        (p : asr.ptr) (geometry : asr.GPUGeometry)
        (V P : glm.mat4) (ms vs ps : asr.matrix_stack) :
  asr.current_gpu_geometry s = Some p ->
  asr.objects s p = Some geometry ->
  asr.mvp_matrix_uniform_location s <> (-1)%Z ->
  asr.model_matrix_stack s = V :: ms ->
  asr.view_matrix_stack s = V :: vs ->
  asr.projection_matrix_stack s = P :: ps ->
  determinant V <> 0%R ->
  exists s',
    asr.render_current_es2_gpu_geometry ticks_per_millisecond now s = asr.Ok s' /\
    gl_uniform_matrix (asr.mvp_matrix_uniform_location s) (asr.gl_calls s') =
    Some P.
Proof.
  intros Hcur Hobj Hmvp HM HV HP Hdet.
  destruct (render_with_mvp_uniform ticks_per_millisecond now s p geometry
                                    V V P ms vs ps Hcur Hobj Hmvp HM HV HP)
    as (earlier & Hrun & _).
  eexists. split; [exact Hrun |].
  cbn [asr.gl_calls asr.with_gl_calls gl_uniform_matrix].
  rewrite Z.eqb_refl, mat_mul_assoc, (inverse_mul_l V Hdet), mat_mul_identity_r.
  reflexivity.
Qed.

(** X11. What the orthographic projection shows: with a non-zero zoom, a
    window of non-zero width and height and distinct near and far planes,
    the matrix [load_orthographic_projection_matrix] puts on top maps the
    corner (zoom * A, zoom) of the near plane to (1, 1, -1) and the opposite
    corner of the far plane to (-1, -1, 1), A being width over height. *)
Theorem orthographic_maps_view_box_to_unit_cube
        (zoom near_plane far_plane : R) (s : asr.State)
        (m : glm.mat4) (below : asr.matrix_stack) :
  asr.current_stack s = m :: below ->
  zoom <> 0%R ->
  asr.window_width s <> 0%Z ->
  asr.window_height s <> 0%Z ->
  near_plane <> far_plane ->
  exists s' projection,
    asr.load_orthographic_projection_matrix zoom near_plane far_plane s
    = asr.Ok s' /\
    asr.current_stack s' = projection :: below /\
    glm.mat_vec projection
      (point (glm.mkvec3
                (zoom * (IZR (asr.window_width s) / IZR (asr.window_height s)))
                zoom (- near_plane)))
    = glm.mkvec4 1 1 (-1) 1 /\
    glm.mat_vec projection
      (point (glm.mkvec3
                (- (zoom * (IZR (asr.window_width s) / IZR (asr.window_height s))))
                (- zoom) (- far_plane)))
    = glm.mkvec4 (-1) (-1) 1 1.
Proof.
  intros Hstack Hzoom Hw Hh Hplanes.
  unfold asr.load_orthographic_projection_matrix.
  rewrite (load_matrix_ok _ s m below Hstack).
  eexists; eexists. split; [reflexivity |].
  split; [apply current_set_current_stack |].
  apply not_0_IZR in Hw. apply not_0_IZR in Hh.
  unfold point. glm_unfold.
  assert (zoom * IZR (asr.window_width s) <> 0)%R as Hextent
      by (apply Rmult_integral_contrapositive_currified; assumption).
  split; apply vec4_eq; field; repeat split; try lra;
    intros Hzero; apply Hextent; lra.
Qed.

Lemma draw_inverts_camera_translation_witness :
  exists s',
    asr.render_current_es2_gpu_geometry 1000%Z 5000%Z camera_state = asr.Ok s' /\
    gl_uniform_matrix 0 (asr.gl_calls s') =
    Some (glm.mat_mul
            (glm.mat_mul glm.identity
               (glm.translate glm.identity (glm.mkvec3 (- 0) (- 0) (- 5))))
            (glm.translate glm.identity (glm.mkvec3 1 0 0))).
Proof.
  apply (draw_inverts_camera_translation
           1000%Z 5000%Z camera_state 0%nat triangle
           (glm.translate glm.identity (glm.mkvec3 1 0 0)) glm.identity
           (glm.mkvec3 0 0 5) [] [] []).
  - reflexivity.
  - reflexivity.
  - discriminate.
  - reflexivity.
  - reflexivity.
  - reflexivity.
Defined.

Lemma draw_at_camera_pose_sends_projection_witness :
  exists s',
    asr.render_current_es2_gpu_geometry 1000%Z 5000%Z same_pose_state
    = asr.Ok s' /\
    gl_uniform_matrix 0 (asr.gl_calls s') = Some glm.identity.
Proof.
  apply (draw_at_camera_pose_sends_projection
           1000%Z 5000%Z same_pose_state 0%nat triangle
           (glm.translate glm.identity (glm.mkvec3 1 0 0)) glm.identity
           [] [] []).
  - reflexivity.
  - reflexivity.
  - discriminate.
  - reflexivity.
  - reflexivity.
  - reflexivity.
  - unfold determinant. glm_unfold. lra.
Defined.

Lemma orthographic_maps_view_box_to_unit_cube_witness :
  exists s' projection,
    asr.load_orthographic_projection_matrix 2 (1 / 10) 100 session_state
    = asr.Ok s' /\
    asr.current_stack s' = projection :: [] /\
    glm.mat_vec projection
      (point (glm.mkvec3 (2 * (IZR 500 / IZR 500)) 2 (- (1 / 10))))
    = glm.mkvec4 1 1 (-1) 1 /\
    glm.mat_vec projection
      (point (glm.mkvec3 (- (2 * (IZR 500 / IZR 500))) (- 2) (- 100)))
    = glm.mkvec4 (-1) (-1) 1 1.
Proof.
  apply (orthographic_maps_view_box_to_unit_cube
           2 (1 / 10) 100 session_state glm.identity []).
  - reflexivity.
  - lra.
  - discriminate.
  - discriminate.
  - lra.
Defined.

(** ** Further properties of the frame render controller *)

(** The outcome of a draw with a valid selection, by cases on the MVP
    location and the three stacks. *)
Lemma render_outcome
      (ticks_per_millisecond : Z) (now : asr.time_point) (s : asr.State)
      (p : asr.ptr) (geometry : asr.GPUGeometry) :
  asr.current_gpu_geometry s = Some p ->
  asr.objects s p = Some geometry ->
  (asr.mvp_matrix_uniform_location s <> (-1)%Z /\ ~ stacks_nonempty s /\
   asr.render_current_es2_gpu_geometry ticks_per_millisecond now s
   = asr.Undefined)
  \/
  ((asr.mvp_matrix_uniform_location s = (-1)%Z \/ stacks_nonempty s) /\
   exists earlier,
     asr.render_current_es2_gpu_geometry ticks_per_millisecond now s =
     asr.Ok (asr.with_gl_calls
               (glDrawElements
                  (asr.convert_geometry_type_to_es2_geometry_type
                     (asr.type geometry))
                  (to_int32 (asr.vertex_count geometry)) GL_UNSIGNED_INT 0
                :: earlier)
               s)).
Proof.
  intros Hcur Hobj.
  unfold asr.render_current_es2_gpu_geometry, stacks_nonempty. rewrite Hcur.
  cbv zeta.
  destruct (asr.time_uniform_location (asr.gl (glUseProgram (asr.shader_program s)) s)
            =? -1)%Z eqn:Htime;
    cbn -[glm.inverse glm.mat_mul Z.quot IZR Rdiv to_int32] in Htime |- *;
    (destruct (asr.mvp_matrix_uniform_location s =? -1)%Z eqn:Hmvp;
     [ apply Z.eqb_eq in Hmvp; right; split; [left; exact Hmvp |];
       unfold asr.deref; cbn [asr.bind asr.objects asr.gl asr.with_gl_calls];
       rewrite Hobj; cbn [asr.bind]; eexists; reflexivity
     | apply Z.eqb_neq in Hmvp;
       destruct (asr.model_matrix_stack s) as [| M ms];
       [ left; split; [exact Hmvp |]; split;
         [intros (H & _); congruence | reflexivity] |];
       destruct (asr.view_matrix_stack s) as [| V vs];
       [ left; split; [exact Hmvp |]; split;
         [intros (_ & H & _); congruence | reflexivity] |];
       destruct (asr.projection_matrix_stack s) as [| P ps];
       [ left; split; [exact Hmvp |]; split;
         [intros (_ & _ & H); congruence | reflexivity] |];
       right; split; [right; repeat split; discriminate |];
       cbn [asr.top asr.bind]; unfold asr.deref;
       cbn [asr.objects asr.gl asr.with_gl_calls];
       rewrite Hobj; cbn [asr.bind]; eexists; reflexivity ]).
Qed.

(** X12. The draw reads the stacks only for a shader with an MVP uniform:
    with a valid geometry selected, the draw is undefined exactly when the
    MVP location is not -1 and one of the three stacks is empty (as all are
    before the session starts); otherwise it completes. *)
Theorem draw_undefined_iff_mvp_and_empty_stack
        (ticks_per_millisecond : Z) (now : asr.time_point) (s : asr.State)
        (p : asr.ptr) (geometry : asr.GPUGeometry) :
  asr.current_gpu_geometry s = Some p ->
  asr.objects s p = Some geometry ->
  (asr.render_current_es2_gpu_geometry ticks_per_millisecond now s
   = asr.Undefined
   <-> asr.mvp_matrix_uniform_location s <> (-1)%Z /\ ~ stacks_nonempty s)
  /\
  (asr.render_current_es2_gpu_geometry ticks_per_millisecond now s
   <> asr.Undefined ->
   exists s',
     asr.render_current_es2_gpu_geometry ticks_per_millisecond now s
     = asr.Ok s').
Proof.
  intros Hcur Hobj.
  destruct (render_outcome ticks_per_millisecond now s p geometry Hcur Hobj)
    as [(Hmvp & Hempty & Hrun) | (Hfine & earlier & Hrun)]; rewrite Hrun.
  - split; [split; auto | congruence].
  - split.
    + split; [discriminate |].
      intros (Hmvp & Hempty). destruct Hfine; contradiction.
    + intros _. eexists. reflexivity.
Qed.

Lemma draw_undefined_iff_mvp_and_empty_stack_witness :
  (asr.render_current_es2_gpu_geometry
     1000%Z 5000%Z
     (asr.with_stacks [] [glm.identity] [glm.identity] drawing_state)
   = asr.Undefined
   <-> asr.mvp_matrix_uniform_location
         (asr.with_stacks [] [glm.identity] [glm.identity] drawing_state)
       <> (-1)%Z /\
       ~ stacks_nonempty
           (asr.with_stacks [] [glm.identity] [glm.identity] drawing_state))
  /\
  (asr.render_current_es2_gpu_geometry
     1000%Z 5000%Z
     (asr.with_stacks [] [glm.identity] [glm.identity] drawing_state)
   <> asr.Undefined ->
   exists s',
     asr.render_current_es2_gpu_geometry
       1000%Z 5000%Z
       (asr.with_stacks [] [glm.identity] [glm.identity] drawing_state)
     = asr.Ok s').
Proof.
  apply (draw_undefined_iff_mvp_and_empty_stack
           1000%Z 5000%Z
           (asr.with_stacks [] [glm.identity] [glm.identity] drawing_state)
           0%nat triangle).
  - reflexivity.
  - reflexivity.
Defined.

(** X13. The draw changes nothing but the device: when it completes, every
    global of the namespace and every geometry object is as before, and the
    most recent call in the log is the indexed draw of the selected
    geometry's primitive type and vertex count. *)
Theorem draw_changes_only_the_device
        (ticks_per_millisecond : Z) (now : asr.time_point) (s s' : asr.State)
        (p : asr.ptr) (geometry : asr.GPUGeometry) :
  asr.current_gpu_geometry s = Some p ->
  asr.objects s p = Some geometry ->
  asr.render_current_es2_gpu_geometry ticks_per_millisecond now s = asr.Ok s' ->
  s' = asr.with_gl_calls (asr.gl_calls s') s /\
  exists earlier,
    asr.gl_calls s' =
    glDrawElements
      (asr.convert_geometry_type_to_es2_geometry_type (asr.type geometry))
      (to_int32 (asr.vertex_count geometry)) GL_UNSIGNED_INT 0
    :: earlier.
Proof.
  intros Hcur Hobj Hrun.
  destruct (render_outcome ticks_per_millisecond now s p geometry Hcur Hobj)
    as [(_ & _ & Hundef) | (_ & earlier & Hok)].
  - congruence.
  - rewrite Hok in Hrun. injection Hrun as <-.
    split; [reflexivity |]. exists earlier. reflexivity.
Qed.

Lemma draw_changes_only_the_device_witness :
  asr.with_gl_calls
    [glDrawElements GL_TRIANGLES 3 GL_UNSIGNED_INT 0;
     glUniformMatrix4fv
       0 1 false
       (glm.mat_mul (glm.mat_mul glm.identity (glm.inverse glm.identity))
                    (glm.translate glm.identity (glm.mkvec3 1 0 0)));
     glUseProgram 1]
    drawing_state
  = asr.with_gl_calls
      (asr.gl_calls
         (asr.with_gl_calls
            [glDrawElements GL_TRIANGLES 3 GL_UNSIGNED_INT 0;
             glUniformMatrix4fv
               0 1 false
               (glm.mat_mul (glm.mat_mul glm.identity (glm.inverse glm.identity))
                            (glm.translate glm.identity (glm.mkvec3 1 0 0)));
             glUseProgram 1]
            drawing_state))
      drawing_state
  /\
  exists earlier,
    asr.gl_calls
      (asr.with_gl_calls
         [glDrawElements GL_TRIANGLES 3 GL_UNSIGNED_INT 0;
          glUniformMatrix4fv
            0 1 false
            (glm.mat_mul (glm.mat_mul glm.identity (glm.inverse glm.identity))
                         (glm.translate glm.identity (glm.mkvec3 1 0 0)));
          glUseProgram 1]
         drawing_state)
    = glDrawElements
        (asr.convert_geometry_type_to_es2_geometry_type (asr.type triangle))
        (to_int32 (asr.vertex_count triangle)) GL_UNSIGNED_INT 0
      :: earlier.
Proof.
  apply (draw_changes_only_the_device 1000%Z 5000%Z drawing_state _ 0%nat triangle).
  - reflexivity.
  - reflexivity.
  - reflexivity.
Defined.

(** The time a draw sends, in exact arithmetic: the whole milliseconds since
    the session start, over 1000. *)
Lemma render_time_upload
      (ticks_per_millisecond : Z) (now : asr.time_point) (s : asr.State)
      (p : asr.ptr) (geometry : asr.GPUGeometry) (k : Z) :
  asr.current_gpu_geometry s = Some p ->
  asr.objects s p = Some geometry ->
  asr.mvp_matrix_uniform_location s = (-1)%Z \/ stacks_nonempty s ->
  asr.time_uniform_location s <> (-1)%Z ->
  (0 < ticks_per_millisecond)%Z ->
  (0 <= k)%Z ->
  (k * ticks_per_millisecond <= now - asr.rendering_start_time s
   < (k + 1) * ticks_per_millisecond)%Z ->
  exists s',
    asr.render_current_es2_gpu_geometry ticks_per_millisecond now s = asr.Ok s' /\
    gl_uniform_float (asr.time_uniform_location s) (asr.gl_calls s')
    = Some (IZR k / 1000)%R.
Proof.
  intros Hcur Hobj Hfine Htime Hticks Hk Helapsed.
  assert (Z.quot (now - asr.rendering_start_time s) ticks_per_millisecond = k)
    as Hquot.
  { rewrite Z.quot_div_nonneg by nia.
    symmetry.
    apply (Z.div_unique_pos _ _ k
             (now - asr.rendering_start_time s - ticks_per_millisecond * k));
      nia. }
  apply Z.eqb_neq in Htime.
  unfold asr.render_current_es2_gpu_geometry. rewrite Hcur. cbv zeta.
  cbn -[glm.inverse glm.mat_mul Z.quot IZR Rdiv to_int32].
  rewrite Htime.
  cbn -[glm.inverse glm.mat_mul Z.quot IZR Rdiv to_int32].
  rewrite Hquot.
  destruct (asr.mvp_matrix_uniform_location s =? -1)%Z eqn:Hmvp.
  - unfold asr.deref. cbn [asr.bind asr.objects asr.gl asr.with_gl_calls].
    rewrite Hobj. cbn [asr.bind]. eexists. split; [reflexivity |].
    cbn [asr.gl_calls asr.gl asr.with_gl_calls gl_uniform_float].
    rewrite Z.eqb_refl. reflexivity.
  - apply Z.eqb_neq in Hmvp. destruct Hfine as [Hnone | (HM & HV & HP)];
      [contradiction |].
    destruct (asr.model_matrix_stack s) as [| M ms]; [congruence |].
    destruct (asr.view_matrix_stack s) as [| V vs]; [congruence |].
    destruct (asr.projection_matrix_stack s) as [| P ps]; [congruence |].
    cbn [asr.top asr.bind]. unfold asr.deref.
    cbn [asr.objects asr.gl asr.with_gl_calls].
    rewrite Hobj. cbn [asr.bind]. eexists. split; [reflexivity |].
    cbn [asr.gl_calls asr.gl asr.with_gl_calls gl_uniform_float].
    rewrite Z.eqb_refl. reflexivity.
Qed.

(** X14. The fraction of a millisecond never reaches the shader: for a
    shader with a time uniform, two draws whose clock readings fall in the
    same whole millisecond after the recorded session start both complete
    and send the same time value, and within the first millisecond that
    value is 0. *)
Theorem draw_time_ignores_fraction_of_millisecond
        (ticks_per_millisecond : Z) (now1 now2 : asr.time_point) (s : asr.State)
        (p : asr.ptr) (geometry : asr.GPUGeometry) (k : Z) :
  asr.current_gpu_geometry s = Some p ->
  asr.objects s p = Some geometry ->
  asr.mvp_matrix_uniform_location s = (-1)%Z \/ stacks_nonempty s ->
  asr.time_uniform_location s <> (-1)%Z ->
  (0 < ticks_per_millisecond)%Z ->
  (0 <= k)%Z ->
  (k * ticks_per_millisecond <= now1 - asr.rendering_start_time s
   < (k + 1) * ticks_per_millisecond)%Z ->
  (k * ticks_per_millisecond <= now2 - asr.rendering_start_time s
   < (k + 1) * ticks_per_millisecond)%Z ->
  exists s1 s2 sent,
    asr.render_current_es2_gpu_geometry ticks_per_millisecond now1 s
    = asr.Ok s1 /\
    asr.render_current_es2_gpu_geometry ticks_per_millisecond now2 s
    = asr.Ok s2 /\
    gl_uniform_float (asr.time_uniform_location s) (asr.gl_calls s1)
    = Some sent /\
    gl_uniform_float (asr.time_uniform_location s) (asr.gl_calls s2)
    = Some sent /\
    (k = 0%Z -> sent = 0%R).
Proof.
  intros Hcur Hobj Hfine Htime Hticks Hk Hnow1 Hnow2.
  destruct (render_time_upload ticks_per_millisecond now1 s p geometry k
                               Hcur Hobj Hfine Htime Hticks Hk Hnow1)
    as (s1 & Hrun1 & Hsent1).
  destruct (render_time_upload ticks_per_millisecond now2 s p geometry k
                               Hcur Hobj Hfine Htime Hticks Hk Hnow2)
    as (s2 & Hrun2 & Hsent2).
  exists s1, s2, (IZR k / 1000)%R.
  repeat (split; [assumption |]).
  intros ->. unfold Rdiv. apply Rmult_0_l.
Qed.

Lemma draw_time_ignores_fraction_of_millisecond_witness :
  exists s1 s2 sent,
    asr.render_current_es2_gpu_geometry 1000%Z 3000%Z camera_state
    = asr.Ok s1 /\
    asr.render_current_es2_gpu_geometry 1000%Z 3999%Z camera_state
    = asr.Ok s2 /\
    gl_uniform_float 2 (asr.gl_calls s1) = Some sent /\
    gl_uniform_float 2 (asr.gl_calls s2) = Some sent /\
    (2%Z = 0%Z -> sent = 0%R).
Proof.
  apply (draw_time_ignores_fraction_of_millisecond
           1000%Z 3000%Z 3999%Z camera_state 0%nat triangle 2%Z).
  - reflexivity.
  - reflexivity.
  - right. repeat split; discriminate.
  - discriminate.
  - lia.
  - lia.
  - cbn. lia.
  - cbn. lia.
Defined.

(** X15. Capability switches: depth testing is on after [enable_depth_test]
    and off after [disable_depth_test], face culling is on after
    [enable_face_culling] and off after [disable_face_culling], whatever
    came before; neither pair touches the other capability. *)
Theorem capability_switches (s : asr.State) :
  gl_is_enabled GL_DEPTH_TEST (asr.gl_calls (asr.enable_depth_test s)) = true /\
  gl_is_enabled GL_DEPTH_TEST (asr.gl_calls (asr.disable_depth_test s)) = false /\
  gl_is_enabled GL_CULL_FACE (asr.gl_calls (asr.enable_face_culling s)) = true /\
  gl_is_enabled GL_CULL_FACE (asr.gl_calls (asr.disable_face_culling s)) = false /\
  gl_is_enabled GL_CULL_FACE (asr.gl_calls (asr.enable_depth_test s))
  = gl_is_enabled GL_CULL_FACE (asr.gl_calls s) /\
  gl_is_enabled GL_CULL_FACE (asr.gl_calls (asr.disable_depth_test s))
  = gl_is_enabled GL_CULL_FACE (asr.gl_calls s) /\
  gl_is_enabled GL_DEPTH_TEST (asr.gl_calls (asr.enable_face_culling s))
  = gl_is_enabled GL_DEPTH_TEST (asr.gl_calls s) /\
  gl_is_enabled GL_DEPTH_TEST (asr.gl_calls (asr.disable_face_culling s))
  = gl_is_enabled GL_DEPTH_TEST (asr.gl_calls s).
Proof. repeat split. Qed.

(** ** Further properties of the geometry resource manager *)

(** X16. The primitive kinds and the fall-through: two of the seven
    enumerators are converted to the same OpenGL mode only when they are the
    same enumerator; the value that names no enumerator leaves the switch
    and is converted to [GL_TRIANGLES], the mode of [Triangles], so over the
    whole type the conversion is not one to one. *)
Theorem convert_geometry_type_injective_on_enumerators :
  (forall t1 t2 : asr.GeometryType,
      t1 <> asr.Unnamed -> t2 <> asr.Unnamed ->
      asr.convert_geometry_type_to_es2_geometry_type t1
      = asr.convert_geometry_type_to_es2_geometry_type t2 ->
      t1 = t2)
  /\
  asr.convert_geometry_type_to_es2_geometry_type asr.Unnamed = GL_TRIANGLES /\
  asr.convert_geometry_type_to_es2_geometry_type asr.Unnamed
  = asr.convert_geometry_type_to_es2_geometry_type asr.Triangles /\
  asr.Unnamed <> asr.Triangles.
Proof.
  split; [| split; [reflexivity | split; [reflexivity | discriminate]]].
  intros t1 t2 Hnamed1 Hnamed2 Hsame.
  destruct t1, t2; try reflexivity; try discriminate Hsame; congruence.
Qed.

Lemma convert_geometry_type_injective_on_enumerators_witness :
  asr.TriangleFan = asr.TriangleFan.
Proof.
  apply (proj1 convert_geometry_type_injective_on_enumerators
               asr.TriangleFan asr.TriangleFan).
  - discriminate.
  - discriminate.
  - reflexivity.
Defined.

(** X17. Selection is exclusive: after selecting the geometry at [p] and
    then the one at [q], the draw is the indexed draw of the geometry at
    [q]; and after selecting nothing, the draw stops at its assertion. *)
Theorem last_selection_is_drawn
        (ticks_per_millisecond : Z) (now : asr.time_point) (s : asr.State)
        (p q : asr.ptr) (at_p at_q : asr.GPUGeometry) :
  asr.objects s p = Some at_p ->
  asr.objects s q = Some at_q ->
  asr.mvp_matrix_uniform_location s = (-1)%Z \/ stacks_nonempty s ->
  (exists s' earlier,
      asr.bind
        (asr.set_es2_gpu_geometry_current (Some p) s)
        (fun selected_p =>
           asr.bind
             (asr.set_es2_gpu_geometry_current (Some q) selected_p)
             (asr.render_current_es2_gpu_geometry ticks_per_millisecond now))
      = asr.Ok s' /\
      asr.current_gpu_geometry s' = Some q /\
      asr.gl_calls s' =
      glDrawElements
        (asr.convert_geometry_type_to_es2_geometry_type (asr.type at_q))
        (to_int32 (asr.vertex_count at_q)) GL_UNSIGNED_INT 0
      :: earlier)
  /\
  asr.bind
    (asr.set_es2_gpu_geometry_current (Some p) s)
    (fun selected_p =>
       asr.bind
         (asr.set_es2_gpu_geometry_current None selected_p)
         (asr.render_current_es2_gpu_geometry ticks_per_millisecond now))
  = asr.AssertionFailure.
Proof.
  intros Hp Hq Hfine.
  unfold asr.set_es2_gpu_geometry_current at 1 3, asr.deref.
  cbn [asr.objects asr.with_current_gpu_geometry]. rewrite Hp.
  cbn [asr.bind].
  split.
  - unfold asr.set_es2_gpu_geometry_current, asr.deref.
    cbn [asr.objects asr.with_current_gpu_geometry asr.gl asr.with_gl_calls].
    rewrite Hq. cbn [asr.bind].
    match goal with
    | |- exists _ _, asr.render_current_es2_gpu_geometry _ _ ?st = _ /\ _ =>
        destruct (render_outcome ticks_per_millisecond now st q at_q
                                 eq_refl Hq)
          as [(Hmvp & Hempty & _) | (_ & earlier & Hrun)]
    end.
    + exfalso. destruct Hfine as [Hnone | Hstacks]; [exact (Hmvp Hnone) |].
      apply Hempty. exact Hstacks.
    + rewrite Hrun. eexists; eexists. split; [reflexivity |].
      split; reflexivity.
  - reflexivity.
Qed.

Lemma last_selection_is_drawn_witness :
  (exists s' earlier,
      asr.bind
        (asr.set_es2_gpu_geometry_current (Some 0%nat) camera_state)
        (fun selected_p =>
           asr.bind
             (asr.set_es2_gpu_geometry_current (Some 1%nat) selected_p)
             (asr.render_current_es2_gpu_geometry 1000%Z 5000%Z))
      = asr.Ok s' /\
      asr.current_gpu_geometry s' = Some 1%nat /\
      asr.gl_calls s' =
      glDrawElements
        (asr.convert_geometry_type_to_es2_geometry_type (asr.type strip))
        (to_int32 (asr.vertex_count strip)) GL_UNSIGNED_INT 0
      :: earlier)
  /\
  asr.bind
    (asr.set_es2_gpu_geometry_current (Some 0%nat) camera_state)
    (fun selected_p =>
       asr.bind
         (asr.set_es2_gpu_geometry_current None selected_p)
         (asr.render_current_es2_gpu_geometry 1000%Z 5000%Z))
  = asr.AssertionFailure.
Proof.
  apply (last_selection_is_drawn 1000%Z 5000%Z camera_state
                                 0%nat 1%nat triangle strip).
  - reflexivity.
  - reflexivity.
  - right. repeat split; discriminate.
Defined.

Lemma remove_one_head (name : Z) (names : list Z) :
  remove_one name (name :: names) = names.
Proof. cbn. rewrite Z.eqb_refl. reflexivity. Qed.

Lemma remove_one_second (first second : Z) (names : list Z) :
  remove_one first (remove_one second (first :: second :: names)) = names.
Proof.
  cbn [remove_one]. destruct (first =? second)%Z eqn:Hsame.
  - apply Z.eqb_eq in Hsame. subst second. apply remove_one_head.
  - rewrite Z.eqb_refl. apply remove_one_head.
Qed.

(** X18. Destroying twice: a second [destroy_es2_gpu_geometry] on the same
    object completes, leaves the object as the first call left it, and asks
    the device to delete the reserved name 0 three times. *)
Theorem destroy_twice_deletes_name_zero
        (p : asr.ptr) (s : asr.State) (geometry : asr.GPUGeometry) :
  asr.objects s p = Some geometry ->
  exists s1 s2,
    asr.destroy_es2_gpu_geometry p s = asr.Ok s1 /\
    asr.destroy_es2_gpu_geometry p s1 = asr.Ok s2 /\
    asr.objects s2 p = asr.objects s1 p /\
    asr.gl_calls s2 =
    glDeleteBuffers 1 0
    :: glBindBuffer GL_ELEMENT_ARRAY_BUFFER 0
    :: glDeleteBuffers 1 0
    :: glBindBuffer GL_ARRAY_BUFFER 0
    :: glDeleteVertexArrays 1 0
    :: glBindVertexArray 0
    :: asr.gl_calls s1.
Proof.
  intros Hobj.
  unfold asr.destroy_es2_gpu_geometry at 1, asr.deref. rewrite Hobj.
  cbn [asr.bind]. cbv zeta.
  eexists; eexists. split; [reflexivity |].
  unfold asr.destroy_es2_gpu_geometry, asr.deref.
  rewrite objects_store_same. cbn [asr.bind]. cbv zeta.
  split; [reflexivity |].
  rewrite !objects_store_same. split; reflexivity.
Qed.

Lemma destroy_twice_deletes_name_zero_witness :
  exists s1 s2,
    asr.destroy_es2_gpu_geometry 0%nat drawing_state = asr.Ok s1 /\
    asr.destroy_es2_gpu_geometry 0%nat s1 = asr.Ok s2 /\
    asr.objects s2 0%nat = asr.objects s1 0%nat /\
    asr.gl_calls s2 =
    glDeleteBuffers 1 0
    :: glBindBuffer GL_ELEMENT_ARRAY_BUFFER 0
    :: glDeleteBuffers 1 0
    :: glBindBuffer GL_ARRAY_BUFFER 0
    :: glDeleteVertexArrays 1 0
    :: glBindVertexArray 0
    :: asr.gl_calls s1.
Proof.
  apply (destroy_twice_deletes_name_zero 0%nat drawing_state triangle).
  reflexivity.
Defined.

(** X19. Destroying does not deselect: after selecting the geometry at [p]
    and destroying it, the selection still points to [p], whose three
    handles are now zero, and a draw still issues the indexed draw with the
    object's primitive type and vertex count. *)
Theorem destroy_keeps_selection
        (ticks_per_millisecond : Z) (now : asr.time_point) (s : asr.State)
        (p : asr.ptr) (geometry : asr.GPUGeometry) :
  asr.objects s p = Some geometry ->
  asr.mvp_matrix_uniform_location s = (-1)%Z \/ stacks_nonempty s ->
  exists s' destroyed earlier,
    asr.bind
      (asr.set_es2_gpu_geometry_current (Some p) s)
      (fun selected =>
         asr.bind
           (asr.destroy_es2_gpu_geometry p selected)
           (asr.render_current_es2_gpu_geometry ticks_per_millisecond now))
    = asr.Ok s' /\
    asr.current_gpu_geometry s' = Some p /\
    asr.objects s' p = Some destroyed /\
    fully_destroyed destroyed /\
    asr.gl_calls s' =
    glDrawElements
      (asr.convert_geometry_type_to_es2_geometry_type (asr.type geometry))
      (to_int32 (asr.vertex_count geometry)) GL_UNSIGNED_INT 0
    :: earlier.
Proof.
  intros Hobj Hfine.
  unfold asr.set_es2_gpu_geometry_current, asr.deref.
  cbn [asr.objects asr.with_current_gpu_geometry]. rewrite Hobj.
  cbn [asr.bind].
  unfold asr.destroy_es2_gpu_geometry, asr.deref.
  cbn [asr.objects asr.with_current_gpu_geometry asr.gl asr.with_gl_calls].
  rewrite Hobj. cbn [asr.bind]. cbv zeta.
  match goal with
  | |- exists _ _ _,
      asr.render_current_es2_gpu_geometry _ _ (asr.store p ?g ?st) = _ /\ _ =>
      destruct (render_outcome ticks_per_millisecond now (asr.store p g st) p g
                               eq_refl (objects_store_same p g st))
        as [(Hmvp & Hempty & _) | (_ & earlier & Hrun)]
  end.
  - exfalso. destruct Hfine as [Hnone | Hstacks]; [exact (Hmvp Hnone) |].
    apply Hempty. exact Hstacks.
  - rewrite Hrun. eexists; eexists; eexists. split; [reflexivity |].
    split; [reflexivity |].
    split; [apply objects_store_same |].
    split; [repeat split | reflexivity].
Qed.

Lemma destroy_keeps_selection_witness :
  exists s' destroyed earlier,
    asr.bind
      (asr.set_es2_gpu_geometry_current (Some 1%nat) camera_state)
      (fun selected =>
         asr.bind
           (asr.destroy_es2_gpu_geometry 1%nat selected)
           (asr.render_current_es2_gpu_geometry 1000%Z 5000%Z))
    = asr.Ok s' /\
    asr.current_gpu_geometry s' = Some 1%nat /\
    asr.objects s' 1%nat = Some destroyed /\
    fully_destroyed destroyed /\
    asr.gl_calls s' =
    glDrawElements
      (asr.convert_geometry_type_to_es2_geometry_type (asr.type strip))
      (to_int32 (asr.vertex_count strip)) GL_UNSIGNED_INT 0
    :: earlier.
Proof.
  apply (destroy_keeps_selection 1000%Z 5000%Z camera_state 1%nat strip).
  - reflexivity.
  - right. repeat split; discriminate.
Defined.

(** Run the state updates of a straight-line operation, value first, so
    that each intermediate state is computed once. *)
Ltac asr_eval :=
  cbv beta iota zeta delta
    [asr.generate_es2_gpu_geometry asr.gl asr.store fst snd
     asr.with_gl_calls asr.with_objects asr.with_current_gpu_geometry
     asr.window_width asr.window_height asr.shader_program
     asr.position_attribute_location asr.color_attribute_location
     asr.time_uniform_location asr.mvp_matrix_uniform_location
     asr.current_gpu_geometry asr.model_matrix_stack asr.view_matrix_stack
     asr.projection_matrix_stack asr.current_matrix_stack
     asr.rendering_start_time asr.gl_calls asr.objects
     asr.type asr.vertex_count asr.vertex_array_object
     asr.vertex_buffer_object asr.index_buffer_object].

(** [generate_es2_gpu_geometry] in closed form: the geometry it returns and
    the calls it adds to the log, most recent first. *)
Lemma generate_closed_form
      (gl_gen_name : list GLCall -> Z)
      (t : asr.GeometryType) (vertices : list asr.Vertex) (indices : list Z)
      (s : asr.State) :
  asr.generate_es2_gpu_geometry gl_gen_name t vertices indices s =
  (let vao := gl_gen_name (asr.gl_calls s) in
   let log1 :=
     glBindVertexArray vao :: glGenVertexArrays 1 vao :: asr.gl_calls s in
   let vbo := gl_gen_name log1 in
   let log2 :=
     glBufferData GL_ARRAY_BUFFER
                  (to_size_t (Z.of_nat (length vertices) * 7 * 4))
                  (FloatData (flat_map asr.vertex_floats vertices))
                  GL_STATIC_DRAW
     :: glBindBuffer GL_ARRAY_BUFFER vbo :: glGenBuffers 1 vbo :: log1 in
   let ibo := gl_gen_name log2 in
   let log3 :=
     glBufferData GL_ELEMENT_ARRAY_BUFFER
                  (to_size_t (Z.of_nat (length indices) * 4))
                  (UIntData indices) GL_STATIC_DRAW
     :: glBindBuffer GL_ELEMENT_ARRAY_BUFFER ibo :: glGenBuffers 1 ibo :: log2 in
   (asr.mkGPUGeometry t (to_uint32 (Z.of_nat (length indices)))
                      (to_int32 vao) (to_int32 vbo) (to_int32 ibo),
    asr.with_gl_calls
      (glBindBuffer GL_ELEMENT_ARRAY_BUFFER 0
       :: glBindBuffer GL_ARRAY_BUFFER 0
       :: glBindVertexArray 0
       :: glVertexAttribPointer (to_uint32 (asr.color_attribute_location s))
                                4 GL_FLOAT false 28 12
       :: glEnableVertexAttribArray (to_uint32 (asr.color_attribute_location s))
       :: glVertexAttribPointer (to_uint32 (asr.position_attribute_location s))
                                3 GL_FLOAT false 28 0
       :: glEnableVertexAttribArray
            (to_uint32 (asr.position_attribute_location s))
       :: log3)
      s)).
Proof. asr_eval. reflexivity. Qed.

Lemma to_int32_small (n : Z) : (0 <= n < 2 ^ 31)%Z -> to_int32 n = n.
Proof.
  intros Hn. unfold to_int32. rewrite Z.mod_small by lia. lia.
Qed.

Lemma length_vertex_floats (vertices : list asr.Vertex) :
  length (flat_map asr.vertex_floats vertices) = (7 * length vertices)%nat.
Proof.
  induction vertices as [| v rest IH]; [reflexivity |].
  cbn [flat_map asr.vertex_floats length app]. rewrite IH. lia.
Qed.

Lemma counting_driver_GLuint (calls : list GLCall) :
  (0 <= counting_driver calls < 2 ^ 32)%Z.
Proof. pose proof (counting_driver_valid calls). lia. Qed.

Lemma to_int32_zero_iff (n : Z) :
  (0 <= n < 2 ^ 32)%Z -> (to_int32 n <> 0%Z <-> n <> 0%Z).
Proof.
  intros Hn. split.
  - intros Hcast ->. apply Hcast. reflexivity.
  - intros Hname. apply to_int32_nonzero. lia.
Qed.

Section GeometryLifecycle.

(** The driver: what it writes is a [GLuint], and may be 0. *)
Variable gl_gen_name : list GLCall -> Z.
Hypothesis gl_gen_name_GLuint :
  forall calls, (0 <= gl_gen_name calls < 2 ^ 32)%Z.

(** C5, as amended.  [generate_es2_gpu_geometry] asks the device for one
    vertex-array name and two buffer names and returns a geometry whose
    three handles are those names converted to [int], unchecked: a handle
    is different from zero exactly when the driver wrote a name different
    from zero, so the geometry is fully constructed exactly when all three
    names are non-zero.  [destroy_es2_gpu_geometry] on a geometry object
    completes, asks the device to delete the three names its handles hold,
    and leaves all three handles equal to zero, its primitive type and
    vertex count untouched. *)
Theorem geometry_lifecycle :
  (forall (t : asr.GeometryType) (vertices : list asr.Vertex) (indices : list Z)
          (s : asr.State),
      exists vao vbo ibo,
        gl_outstanding_vertex_arrays
          (asr.gl_calls
             (snd (asr.generate_es2_gpu_geometry
                     gl_gen_name t vertices indices s)))
        = vao :: gl_outstanding_vertex_arrays (asr.gl_calls s) /\
        gl_outstanding_buffers
          (asr.gl_calls
             (snd (asr.generate_es2_gpu_geometry
                     gl_gen_name t vertices indices s)))
        = ibo :: vbo :: gl_outstanding_buffers (asr.gl_calls s) /\
        asr.vertex_array_object
          (fst (asr.generate_es2_gpu_geometry gl_gen_name t vertices indices s))
        = to_int32 vao /\
        asr.vertex_buffer_object
          (fst (asr.generate_es2_gpu_geometry gl_gen_name t vertices indices s))
        = to_int32 vbo /\
        asr.index_buffer_object
          (fst (asr.generate_es2_gpu_geometry gl_gen_name t vertices indices s))
        = to_int32 ibo /\
        (to_int32 vao <> 0%Z <-> vao <> 0%Z) /\
        (to_int32 vbo <> 0%Z <-> vbo <> 0%Z) /\
        (to_int32 ibo <> 0%Z <-> ibo <> 0%Z) /\
        (fully_constructed
           (fst (asr.generate_es2_gpu_geometry gl_gen_name t vertices indices s))
         <-> vao <> 0%Z /\ vbo <> 0%Z /\ ibo <> 0%Z))
  /\
  (forall (p : asr.ptr) (s : asr.State) (geometry : asr.GPUGeometry),
      asr.objects s p = Some geometry ->
      exists s' geometry',
        asr.destroy_es2_gpu_geometry p s = asr.Ok s' /\
        asr.objects s' p = Some geometry' /\
        fully_destroyed geometry' /\
        asr.type geometry' = asr.type geometry /\
        asr.vertex_count geometry' = asr.vertex_count geometry /\
        asr.gl_calls s' =
        glDeleteBuffers 1 (to_uint32 (asr.index_buffer_object geometry))
        :: glBindBuffer GL_ELEMENT_ARRAY_BUFFER 0
        :: glDeleteBuffers 1 (to_uint32 (asr.vertex_buffer_object geometry))
        :: glBindBuffer GL_ARRAY_BUFFER 0
        :: glDeleteVertexArrays 1 (to_uint32 (asr.vertex_array_object geometry))
        :: glBindVertexArray 0
        :: asr.gl_calls s).
Proof.
  split.
  - intros t vertices indices s.
    rewrite generate_closed_form. cbv zeta.
    cbn [fst snd asr.gl_calls asr.with_gl_calls
         asr.vertex_array_object asr.vertex_buffer_object
         asr.index_buffer_object
         gl_outstanding_vertex_arrays gl_outstanding_buffers].
    eexists; eexists; eexists.
    split; [reflexivity |]. split; [reflexivity |].
    split; [reflexivity |]. split; [reflexivity |]. split; [reflexivity |].
    pose proof (to_int32_zero_iff _ (gl_gen_name_GLuint (asr.gl_calls s)))
      as Hvao.
    match goal with
    | |- _ /\ (to_int32 (gl_gen_name ?log1) <> _ <-> _) /\
         (to_int32 (gl_gen_name ?log2) <> _ <-> _) /\ _ =>
        pose proof (to_int32_zero_iff _ (gl_gen_name_GLuint log1)) as Hvbo;
        pose proof (to_int32_zero_iff _ (gl_gen_name_GLuint log2)) as Hibo
    end.
    split; [exact Hvao |]. split; [exact Hvbo |]. split; [exact Hibo |].
    unfold fully_constructed.
    cbn [asr.vertex_array_object asr.vertex_buffer_object
         asr.index_buffer_object].
    rewrite Hvao, Hvbo, Hibo. reflexivity.
  - intros p s geometry Hobj.
    unfold asr.destroy_es2_gpu_geometry, asr.deref. rewrite Hobj.
    cbn [asr.bind]. cbv zeta.
    eexists; eexists. split; [reflexivity |].
    split; [apply objects_store_same |].
    repeat split.
Qed.

End GeometryLifecycle.

Lemma geometry_lifecycle_witness :
  (exists vao vbo ibo,
      gl_outstanding_vertex_arrays
        (asr.gl_calls
           (snd (asr.generate_es2_gpu_geometry
                   counting_driver asr.Triangles
                   [asr.mkVertex 0 0 0 1 0 0 1; asr.mkVertex 1 0 0 0 1 0 1;
                    asr.mkVertex 0 1 0 0 0 1 1]
                   [0%Z; 1%Z; 2%Z] session_state)))
      = vao :: gl_outstanding_vertex_arrays (asr.gl_calls session_state) /\
      gl_outstanding_buffers
        (asr.gl_calls
           (snd (asr.generate_es2_gpu_geometry
                   counting_driver asr.Triangles
                   [asr.mkVertex 0 0 0 1 0 0 1; asr.mkVertex 1 0 0 0 1 0 1;
                    asr.mkVertex 0 1 0 0 0 1 1]
                   [0%Z; 1%Z; 2%Z] session_state)))
      = ibo :: vbo :: gl_outstanding_buffers (asr.gl_calls session_state) /\
      asr.vertex_array_object
        (fst (asr.generate_es2_gpu_geometry
                counting_driver asr.Triangles
                [asr.mkVertex 0 0 0 1 0 0 1; asr.mkVertex 1 0 0 0 1 0 1;
                 asr.mkVertex 0 1 0 0 0 1 1]
                [0%Z; 1%Z; 2%Z] session_state))
      = to_int32 vao /\
      asr.vertex_buffer_object
        (fst (asr.generate_es2_gpu_geometry
                counting_driver asr.Triangles
                [asr.mkVertex 0 0 0 1 0 0 1; asr.mkVertex 1 0 0 0 1 0 1;
                 asr.mkVertex 0 1 0 0 0 1 1]
                [0%Z; 1%Z; 2%Z] session_state))
      = to_int32 vbo /\
      asr.index_buffer_object
        (fst (asr.generate_es2_gpu_geometry
                counting_driver asr.Triangles
                [asr.mkVertex 0 0 0 1 0 0 1; asr.mkVertex 1 0 0 0 1 0 1;
                 asr.mkVertex 0 1 0 0 0 1 1]
                [0%Z; 1%Z; 2%Z] session_state))
      = to_int32 ibo /\
      (to_int32 vao <> 0%Z <-> vao <> 0%Z) /\
      (to_int32 vbo <> 0%Z <-> vbo <> 0%Z) /\
      (to_int32 ibo <> 0%Z <-> ibo <> 0%Z) /\
      (fully_constructed
         (fst (asr.generate_es2_gpu_geometry
                 counting_driver asr.Triangles
                 [asr.mkVertex 0 0 0 1 0 0 1; asr.mkVertex 1 0 0 0 1 0 1;
                  asr.mkVertex 0 1 0 0 0 1 1]
                 [0%Z; 1%Z; 2%Z] session_state))
       <-> vao <> 0%Z /\ vbo <> 0%Z /\ ibo <> 0%Z))
  /\
  (exists s' geometry',
      asr.destroy_es2_gpu_geometry 0%nat drawing_state = asr.Ok s' /\
      asr.objects s' 0%nat = Some geometry' /\
      fully_destroyed geometry' /\
      asr.type geometry' = asr.type triangle /\
      asr.vertex_count geometry' = asr.vertex_count triangle /\
      asr.gl_calls s' =
      glDeleteBuffers 1 (to_uint32 (asr.index_buffer_object triangle))
      :: glBindBuffer GL_ELEMENT_ARRAY_BUFFER 0
      :: glDeleteBuffers 1 (to_uint32 (asr.vertex_buffer_object triangle))
      :: glBindBuffer GL_ARRAY_BUFFER 0
      :: glDeleteVertexArrays 1 (to_uint32 (asr.vertex_array_object triangle))
      :: glBindVertexArray 0
      :: asr.gl_calls drawing_state).
Proof.
  split.
  - apply (proj1 (geometry_lifecycle counting_driver counting_driver_GLuint)).
  - apply (proj2 (geometry_lifecycle counting_driver counting_driver_GLuint)
                 0%nat drawing_state triangle).
    reflexivity.
Defined.

(** C5, the claim as stated fails: when the driver's [glGen*] calls write
    nothing, the geometry that creation returns has its three handles equal
    to zero. *)
Lemma generate_with_silent_driver_is_not_constructed :
  ~ fully_constructed
      (fst (asr.generate_es2_gpu_geometry
              silent_driver asr.Triangles
              [asr.mkVertex 0 0 0 1 0 0 1; asr.mkVertex 1 0 0 0 1 0 1;
               asr.mkVertex 0 1 0 0 0 1 1]
              [0%Z; 1%Z; 2%Z] session_state)).
Proof.
  rewrite generate_closed_form. cbv zeta. cbn [fst].
  intros (Hvao & _). apply Hvao. reflexivity.
Qed.

(** X20. What creation uploads and leaves behind: for fewer than 2^32
    vertices and indices, [generate_es2_gpu_geometry] changes nothing but the
    device log; the geometry records the given type and the number of
    indices; the vertex buffer receives 7 floats per vertex with a byte size
    of 4 per float, the index buffer the indices with 4 bytes each; and the
    last three calls unbind the vertex array and both buffers. *)
Theorem generate_uploads_and_unbinds
        (gl_gen_name : list GLCall -> Z)
        (t : asr.GeometryType) (vertices : list asr.Vertex) (indices : list Z)
        (s : asr.State) :
  (Z.of_nat (length vertices) < 2 ^ 32)%Z ->
  (Z.of_nat (length indices) < 2 ^ 32)%Z ->
  snd (asr.generate_es2_gpu_geometry gl_gen_name t vertices indices s)
  = asr.with_gl_calls
      (asr.gl_calls
         (snd (asr.generate_es2_gpu_geometry gl_gen_name t vertices indices s)))
      s /\
  asr.type (fst (asr.generate_es2_gpu_geometry gl_gen_name t vertices indices s))
  = t /\
  asr.vertex_count
    (fst (asr.generate_es2_gpu_geometry gl_gen_name t vertices indices s))
  = Z.of_nat (length indices) /\
  (exists floats,
      length floats = (7 * length vertices)%nat /\
      In (glBufferData GL_ARRAY_BUFFER (4 * Z.of_nat (length floats))
                       (FloatData floats) GL_STATIC_DRAW)
         (asr.gl_calls
            (snd (asr.generate_es2_gpu_geometry
                    gl_gen_name t vertices indices s)))) /\
  In (glBufferData GL_ELEMENT_ARRAY_BUFFER (4 * Z.of_nat (length indices))
                   (UIntData indices) GL_STATIC_DRAW)
     (asr.gl_calls
        (snd (asr.generate_es2_gpu_geometry gl_gen_name t vertices indices s))) /\
  exists earlier,
    asr.gl_calls
      (snd (asr.generate_es2_gpu_geometry gl_gen_name t vertices indices s))
    = glBindBuffer GL_ELEMENT_ARRAY_BUFFER 0
      :: glBindBuffer GL_ARRAY_BUFFER 0
      :: glBindVertexArray 0
      :: earlier.
Proof.
  intros Hvertices Hindices.
  assert (to_size_t (Z.of_nat (length vertices) * 7 * 4)
          = (4 * Z.of_nat (7 * length vertices))%Z) as Hvertex_bytes
      by (unfold to_size_t; rewrite Z.mod_small; lia).
  assert (to_size_t (Z.of_nat (length indices) * 4)
          = (4 * Z.of_nat (length indices))%Z) as Hindex_bytes
      by (unfold to_size_t; rewrite Z.mod_small; lia).
  rewrite generate_closed_form. cbv zeta.
  cbn [fst snd asr.gl_calls asr.with_gl_calls asr.type asr.vertex_count].
  rewrite Hvertex_bytes, Hindex_bytes.
  split; [reflexivity |]. split; [reflexivity |].
  split; [unfold to_uint32; apply Z.mod_small; lia |].
  split; [| split].
  - exists (flat_map asr.vertex_floats vertices).
    split; [apply length_vertex_floats |].
    rewrite length_vertex_floats.
    cbn [In]. do 10 right. left. reflexivity.
  - cbn [In]. do 7 right. left. reflexivity.
  - eexists. reflexivity.
Qed.

Lemma generate_uploads_and_unbinds_witness :
  exists earlier,
    asr.gl_calls
      (snd (asr.generate_es2_gpu_geometry
              counting_driver asr.Lines
              [asr.mkVertex 0 0 0 1 1 1 1; asr.mkVertex 1 1 1 1 1 1 1]
              [0%Z; 1%Z] session_state))
    = glBindBuffer GL_ELEMENT_ARRAY_BUFFER 0
      :: glBindBuffer GL_ARRAY_BUFFER 0
      :: glBindVertexArray 0
      :: earlier.
Proof.
  apply (generate_uploads_and_unbinds
           counting_driver asr.Lines
           [asr.mkVertex 0 0 0 1 1 1 1; asr.mkVertex 1 1 1 1 1 1 1]
           [0%Z; 1%Z] session_state).
  - cbn. lia.
  - cbn. lia.
Defined.

Section CreatedGeometry.

Variable gl_gen_name : list GLCall -> Z.
Hypothesis gl_gen_name_valid : forall calls, (0 < gl_gen_name calls < 2 ^ 32)%Z.

(** X21. Creation and destruction balance: when the driver writes valid
    names, creating a geometry, storing it and destroying it completes, and
    the vertex-array names and the buffer names outstanding on the device
    are those from before the creation: the three names deleted are the
    three names generated, recovered from the [int] fields. *)
Theorem create_then_destroy_releases_names
        (t : asr.GeometryType) (vertices : list asr.Vertex) (indices : list Z)
        (p : asr.ptr) (s : asr.State) :
  exists s',
    asr.destroy_es2_gpu_geometry
      p
      (asr.store
         p
         (fst (asr.generate_es2_gpu_geometry gl_gen_name t vertices indices s))
         (snd (asr.generate_es2_gpu_geometry gl_gen_name t vertices indices s)))
    = asr.Ok s' /\
    gl_outstanding_vertex_arrays (asr.gl_calls s')
    = gl_outstanding_vertex_arrays (asr.gl_calls s) /\
    gl_outstanding_buffers (asr.gl_calls s')
    = gl_outstanding_buffers (asr.gl_calls s).
Proof.
  rewrite generate_closed_form. cbv zeta. cbn [fst snd].
  unfold asr.destroy_es2_gpu_geometry, asr.deref.
  rewrite objects_store_same. cbn [asr.bind]. cbv zeta.
  eexists. split; [reflexivity |].
  cbn [asr.gl_calls asr.gl asr.with_gl_calls asr.store asr.with_objects
       asr.vertex_array_object asr.vertex_buffer_object asr.index_buffer_object].
  rewrite !to_uint32_to_int32
    by (split; [apply Z.lt_le_incl |]; apply gl_gen_name_valid).
  cbn [gl_outstanding_vertex_arrays gl_outstanding_buffers].
  split; [apply remove_one_head | apply remove_one_second].
Qed.

(** X22. From creation to the draw: when the driver writes valid names and
    there are fewer than 2^31 indices, selecting a freshly created and stored
    geometry binds the vertex array the driver named at creation, and the
    draw that follows is the indexed draw of the given primitive type with a
    count equal to the number of indices. *)
Theorem created_geometry_is_drawn
        (ticks_per_millisecond : Z) (now : asr.time_point)
        (t : asr.GeometryType) (vertices : list asr.Vertex) (indices : list Z)
        (p : asr.ptr) (s : asr.State) :
  (Z.of_nat (length indices) < 2 ^ 31)%Z ->
  asr.mvp_matrix_uniform_location s = (-1)%Z \/ stacks_nonempty s ->
  exists selected s' earlier,
    asr.set_es2_gpu_geometry_current
      (Some p)
      (asr.store
         p
         (fst (asr.generate_es2_gpu_geometry gl_gen_name t vertices indices s))
         (snd (asr.generate_es2_gpu_geometry gl_gen_name t vertices indices s)))
    = asr.Ok selected /\
    asr.gl_calls selected =
    glBindVertexArray (gl_gen_name (asr.gl_calls s))
    :: asr.gl_calls
         (snd (asr.generate_es2_gpu_geometry gl_gen_name t vertices indices s)) /\
    asr.render_current_es2_gpu_geometry ticks_per_millisecond now selected
    = asr.Ok s' /\
    asr.gl_calls s' =
    glDrawElements (asr.convert_geometry_type_to_es2_geometry_type t)
                   (Z.of_nat (length indices)) GL_UNSIGNED_INT 0
    :: earlier.
Proof.
  intros Hindices Hfine.
  rewrite generate_closed_form. cbv zeta. cbn [fst snd].
  unfold asr.set_es2_gpu_geometry_current, asr.deref.
  cbn [asr.objects asr.with_current_gpu_geometry].
  rewrite objects_store_same. cbn [asr.bind asr.vertex_array_object].
  rewrite to_uint32_to_int32
    by (split; [apply Z.lt_le_incl |]; apply gl_gen_name_valid).
  match goal with
  | |- exists _ _ _, asr.Ok ?st = _ /\ _ =>
      destruct (render_outcome ticks_per_millisecond now st p _
                               eq_refl (objects_store_same p _ _))
        as [(Hmvp & Hempty & _) | (_ & earlier & Hrun)]
  end.
  - exfalso. destruct Hfine as [Hnone | Hstacks]; [exact (Hmvp Hnone) |].
    apply Hempty. exact Hstacks.
  - eexists; eexists; eexists. split; [reflexivity |].
    split; [reflexivity |]. split; [exact Hrun |].
    cbn [asr.gl_calls asr.with_gl_calls asr.type asr.vertex_count].
    unfold to_uint32. rewrite Z.mod_small by lia.
    rewrite to_int32_small by lia. reflexivity.
Qed.

End CreatedGeometry.

Lemma create_then_destroy_releases_names_witness :
  exists s',
    asr.destroy_es2_gpu_geometry
      7%nat
      (asr.store
         7%nat
         (fst (asr.generate_es2_gpu_geometry
                 counting_driver asr.Lines
                 [asr.mkVertex 0 0 0 1 1 1 1; asr.mkVertex 1 1 1 1 1 1 1]
                 [0%Z; 1%Z] session_state))
         (snd (asr.generate_es2_gpu_geometry
                 counting_driver asr.Lines
                 [asr.mkVertex 0 0 0 1 1 1 1; asr.mkVertex 1 1 1 1 1 1 1]
                 [0%Z; 1%Z] session_state)))
    = asr.Ok s' /\
    gl_outstanding_vertex_arrays (asr.gl_calls s')
    = gl_outstanding_vertex_arrays (asr.gl_calls session_state) /\
    gl_outstanding_buffers (asr.gl_calls s')
    = gl_outstanding_buffers (asr.gl_calls session_state).
Proof.
  apply (create_then_destroy_releases_names
           counting_driver counting_driver_valid asr.Lines
           [asr.mkVertex 0 0 0 1 1 1 1; asr.mkVertex 1 1 1 1 1 1 1]
           [0%Z; 1%Z] 7%nat session_state).
Defined.

Lemma created_geometry_is_drawn_witness :
  exists selected s' earlier,
    asr.set_es2_gpu_geometry_current
      (Some 7%nat)
      (asr.store
         7%nat
         (fst (asr.generate_es2_gpu_geometry
                 counting_driver asr.Lines
                 [asr.mkVertex 0 0 0 1 1 1 1; asr.mkVertex 1 1 1 1 1 1 1]
                 [0%Z; 1%Z] session_state))
         (snd (asr.generate_es2_gpu_geometry
                 counting_driver asr.Lines
                 [asr.mkVertex 0 0 0 1 1 1 1; asr.mkVertex 1 1 1 1 1 1 1]
                 [0%Z; 1%Z] session_state)))
    = asr.Ok selected /\
    asr.gl_calls selected =
    glBindVertexArray (counting_driver (asr.gl_calls session_state))
    :: asr.gl_calls
         (snd (asr.generate_es2_gpu_geometry
                 counting_driver asr.Lines
                 [asr.mkVertex 0 0 0 1 1 1 1; asr.mkVertex 1 1 1 1 1 1 1]
                 [0%Z; 1%Z] session_state)) /\
    asr.render_current_es2_gpu_geometry 1000%Z 5000%Z selected = asr.Ok s' /\
    asr.gl_calls s' =
    glDrawElements (asr.convert_geometry_type_to_es2_geometry_type asr.Lines)
                   (Z.of_nat (length [0%Z; 1%Z])) GL_UNSIGNED_INT 0
    :: earlier.
Proof.
  apply (created_geometry_is_drawn
           counting_driver counting_driver_valid 1000%Z 5000%Z asr.Lines
           [asr.mkVertex 0 0 0 1 1 1 1; asr.mkVertex 1 1 1 1 1 1 1]
           [0%Z; 1%Z] 7%nat session_state).
  - cbn. lia.
  - left. reflexivity.
Defined.

(** ** Further properties across components *)

Lemma run_ops_keep_selection (ops : list asr.StackOp) :
  forall s s' : asr.State,
    asr.run_ops ops s = asr.Ok s' ->
    asr.current_gpu_geometry s' = asr.current_gpu_geometry s /\
    asr.objects s' = asr.objects s /\
    asr.mvp_matrix_uniform_location s' = asr.mvp_matrix_uniform_location s.
Proof.
  induction ops as [| op later IH]; intros s s' Hrun.
  - injection Hrun as <-. repeat split.
  - cbn [asr.run_ops] in Hrun.
    destruct (asr.run_op op s) as [s1 | |] eqn:Hop; try discriminate Hrun.
    cbn [asr.bind] in Hrun.
    destruct (IH s1 s' Hrun) as (Hsel & Hmem & Hmvp).
    rewrite Hsel, Hmem, Hmvp.
    destruct (run_op_shape op s s1 Hop) as [(mode & ->) | (st & ->)].
    + destruct mode; repeat split.
    + unfold asr.set_current_stack.
      destruct (asr.current_matrix_stack s); repeat split.
Qed.

(** X23. A session is safe to draw in: after [prepare_for_es2_rendering],
    whatever sequence of transform-stack operations follows completes, and
    a draw of a geometry that was validly selected beforehand then completes
    too, with or without an MVP uniform. *)
Theorem session_then_operations_then_draw_completes
        (ticks_per_millisecond : Z) (start now : asr.time_point)
        (ops : list asr.StackOp) (s : asr.State)
        (p : asr.ptr) (geometry : asr.GPUGeometry) :
  asr.current_gpu_geometry s = Some p ->
  asr.objects s p = Some geometry ->
  exists s1 s2,
    asr.run_ops ops (asr.prepare_for_es2_rendering start s) = asr.Ok s1 /\
    asr.render_current_es2_gpu_geometry ticks_per_millisecond now s1
    = asr.Ok s2.
Proof.
  intros Hcur Hobj.
  destruct (run_ops_nonempty ops (asr.prepare_for_es2_rendering start s)
                             (prepare_for_es2_rendering_nonempty start s))
    as (s1 & Hrun & Hstacks).
  destruct (run_ops_keep_selection ops _ s1 Hrun) as (Hsel & Hmem & _).
  assert (asr.current_gpu_geometry s1 = Some p) as Hcur1
      by (rewrite Hsel; exact Hcur).
  assert (asr.objects s1 p = Some geometry) as Hobj1
      by (rewrite Hmem; exact Hobj).
  exists s1.
  destruct (render_outcome ticks_per_millisecond now s1 p geometry Hcur1 Hobj1)
    as [(_ & Hempty & _) | (_ & earlier & Hdraw)].
  - contradiction.
  - eexists. split; [exact Hrun | exact Hdraw].
Qed.

Lemma session_then_operations_then_draw_completes_witness :
  exists s1 s2,
    asr.run_ops [asr.OpPush; asr.OpRotate (glm.mkvec3 1 2 3); asr.OpPop;
                 asr.OpPop; asr.OpSetMatrixMode asr.Projection; asr.OpPop]
                (asr.prepare_for_es2_rendering 4000%Z camera_state)
    = asr.Ok s1 /\
    asr.render_current_es2_gpu_geometry 1000%Z 9000%Z s1 = asr.Ok s2.
Proof.
  apply (session_then_operations_then_draw_completes
           1000%Z 4000%Z 9000%Z
           [asr.OpPush; asr.OpRotate (glm.mkvec3 1 2 3); asr.OpPop;
            asr.OpPop; asr.OpSetMatrixMode asr.Projection; asr.OpPop]
           camera_state 0%nat triangle).
  - reflexivity.
  - reflexivity.
Defined.

(** X24. The depth after a pop: on a non-empty current stack [pop_matrix]
    completes and the stack is one element shorter, except that a stack of
    one element keeps its depth of one. *)
Theorem pop_depth (s : asr.State) :
  asr.current_stack s <> [] ->
  exists s',
    asr.pop_matrix s = asr.Ok s' /\
    length (asr.current_stack s')
    = Nat.max 1 (length (asr.current_stack s) - 1).
Proof.
  intros Hne.
  destruct (asr.current_stack s) as [| m [| m' below]] eqn:Hstack;
    [congruence | |].
  - rewrite (pop_matrix_singleton s m Hstack). eexists. split; [reflexivity |].
    rewrite current_set_current_stack. reflexivity.
  - rewrite (pop_matrix_deeper s m m' below Hstack).
    eexists. split; [reflexivity |].
    rewrite current_set_current_stack. cbn [length]. lia.
Qed.

Lemma pop_depth_witness :
  exists s',
    asr.pop_matrix translated_state = asr.Ok s' /\
    length (asr.current_stack s')
    = Nat.max 1 (length (asr.current_stack translated_state) - 1).
Proof. apply (pop_depth translated_state). discriminate. Defined.

(** X25. The last load wins: [load_matrix] followed by a second
    [load_matrix] has the outcome of the second alone, and on a non-empty
    current stack the loaded matrix is then on top with the depth
    unchanged. *)
Theorem last_load_wins (first second : glm.mat4) (s : asr.State) :
  asr.bind (asr.load_matrix first s) (asr.load_matrix second)
  = asr.load_matrix second s
  /\
  (asr.current_stack s <> [] ->
   exists s',
     asr.load_matrix second s = asr.Ok s' /\
     asr.top (asr.current_stack s') = asr.Ok second /\
     length (asr.current_stack s') = length (asr.current_stack s)).
Proof.
  unfold asr.load_matrix.
  destruct (asr.current_stack s) as [| m below] eqn:Hstack.
  - split; [reflexivity | congruence].
  - unfold asr.push. cbn [asr.pop asr.bind]. rewrite current_set_current_stack.
    cbn [asr.pop asr.bind]. rewrite set_current_stack_twice.
    split; [reflexivity |]. intros _.
    eexists. split; [reflexivity |].
    rewrite current_set_current_stack. split; reflexivity.
Qed.

Lemma last_load_wins_witness :
  exists s',
    asr.load_matrix (Ry 1) translated_state = asr.Ok s' /\
    asr.top (asr.current_stack s') = asr.Ok (Ry 1) /\
    length (asr.current_stack s') = length (asr.current_stack translated_state).
Proof.
  apply (proj2 (last_load_wins glm.identity (Ry 1) translated_state)).
  discriminate.
Defined.

Section Determinants.

Local Open Scope R_scope.

Lemma sin_cos_square (a : R) : sin a * sin a + cos a * cos a = 1.
Proof. pose proof (sin2_cos2 a) as H. unfold Rsqr in H. exact H. Qed.

Lemma determinant_mul_Ry (m : glm.mat4) (a : R) :
  determinant (glm.mat_mul m (Ry a)) = determinant m.
Proof.
  transitivity (determinant m * (sin a * sin a + cos a * cos a)).
  - destruct m as [[a0 a1 a2 a3] [b0 b1 b2 b3] [d0 d1 d2 d3] [f0 f1 f2 f3]].
    unfold determinant. glm_unfold. ring.
  - rewrite sin_cos_square. ring.
Qed.

Lemma determinant_mul_Rx (m : glm.mat4) (a : R) :
  determinant (glm.mat_mul m (Rx a)) = determinant m.
Proof.
  transitivity (determinant m * (sin a * sin a + cos a * cos a)).
  - destruct m as [[a0 a1 a2 a3] [b0 b1 b2 b3] [d0 d1 d2 d3] [f0 f1 f2 f3]].
    unfold determinant. glm_unfold. ring.
  - rewrite sin_cos_square. ring.
Qed.

Lemma determinant_mul_Rz (m : glm.mat4) (a : R) :
  determinant (glm.mat_mul m (Rz a)) = determinant m.
Proof.
  transitivity (determinant m * (sin a * sin a + cos a * cos a)).
  - destruct m as [[a0 a1 a2 a3] [b0 b1 b2 b3] [d0 d1 d2 d3] [f0 f1 f2 f3]].
    unfold determinant. glm_unfold. ring.
  - rewrite sin_cos_square. ring.
Qed.

Lemma determinant_translate (m : glm.mat4) (v : glm.vec3) :
  determinant (glm.translate m v) = determinant m.
Proof.
  destruct m as [[a0 a1 a2 a3] [b0 b1 b2 b3] [d0 d1 d2 d3] [f0 f1 f2 f3]].
  destruct v as [vx vy vz]. unfold determinant. glm_unfold. ring.
Qed.

Lemma determinant_scale (m : glm.mat4) (v : glm.vec3) :
  determinant (glm.scale m v) = determinant m * (glm.x v * glm.y v * glm.z v).
Proof.
  destruct m as [[a0 a1 a2 a3] [b0 b1 b2 b3] [d0 d1 d2 d3] [f0 f1 f2 f3]].
  destruct v as [vx vy vz]. unfold determinant. glm_unfold. ring.
Qed.

End Determinants.

(** X26. Volume and orientation: [translate_matrix] and [rotate_matrix]
    leave the determinant of the top matrix unchanged, and [scale_matrix]
    multiplies it by the product of the three scale factors; the matrices
    below the top stay as they are. *)
Theorem transforms_and_determinant
        (v : glm.vec3) (s : asr.State) (T : glm.mat4) (below : asr.matrix_stack) :
  asr.current_stack s = T :: below ->
  (exists s' T',
      asr.translate_matrix v s = asr.Ok s' /\
      asr.current_stack s' = T' :: below /\
      determinant T' = determinant T)
  /\
  (exists s' T',
      asr.rotate_matrix v s = asr.Ok s' /\
      asr.current_stack s' = T' :: below /\
      determinant T' = determinant T)
  /\
  (exists s' T',
      asr.scale_matrix v s = asr.Ok s' /\
      asr.current_stack s' = T' :: below /\
      determinant T' = (determinant T * (glm.x v * glm.y v * glm.z v))%R).
Proof.
  intros Hstack. rewrite rotate_matrix_product.
  unfold asr.translate_matrix, asr.scale_matrix. rewrite Hstack.
  unfold asr.push. cbn [asr.top asr.pop asr.bind].
  split; [| split]; eexists; eexists;
    (split; [reflexivity |]); (split; [apply current_set_current_stack |]).
  - apply determinant_translate.
  - rewrite determinant_mul_Rz, determinant_mul_Rx, determinant_mul_Ry.
    reflexivity.
  - apply determinant_scale.
Qed.

Lemma transforms_and_determinant_witness :
  exists s' T',
    asr.rotate_matrix (glm.mkvec3 1 2 3) translated_state = asr.Ok s' /\
    asr.current_stack s' = T' :: [] /\
    determinant T' = determinant (glm.translate glm.identity (glm.mkvec3 1 0 0)).
Proof.
  apply (proj1 (proj2 (transforms_and_determinant
                         (glm.mkvec3 1 2 3) translated_state
                         (glm.translate glm.identity (glm.mkvec3 1 0 0)) []
                         eq_refl))).
Defined.
